(** * clickhouse_sinker: the ClickHouse output (output/clickhouse.go)

    A shallow embedding of [output.ClickHouse]: the schema resolver
    ([initSchema]), the batch executor ([write]), the failure classifier
    ([shouldReconnect]) and the retry controller ([loopWrite]).

    Go strings are byte strings and are modelled by [string]; a Go [error]
    value that may be nil is an [option error]; Go [int] is a 64-bit two's
    complement integer, modelled by [Z] with the wrap-around written out.
    Calls into the collaborators (connection pool, database/sql, the
    prometheus counters, the completion callback, [time.Sleep]) are recorded
    as a trace of events; what the collaborators answer is read from a
    script, so that every run of the code is the run of the model on some
    script.  Calls to the logger are not recorded. *)

From Stdlib Require Import Bool Ascii String List ZArith Lia.
Import ListNotations.
Local Open Scope string_scope.
Local Open Scope list_scope.
Local Open Scope Z_scope.

(* ===================================================================== *)
(** * Part I: the program *)
(* ===================================================================== *)

(** ** Go's [strings] package (the three functions the file calls) *)
Module strings.

(** [strings.HasPrefix(s, prefix)] *)
Fixpoint HasPrefix (s prefix : string) {struct prefix} : bool :=
  match prefix, s with
  | EmptyString, _ => true
  | String _ _, EmptyString => false
  | String p prefix', String c s' => Ascii.eqb c p && HasPrefix s' prefix'
  end.

(** [strings.Index(s, substr)] counted from offset [i]: the byte offset of
    the first occurrence of [substr], or -1. *)
Fixpoint IndexFrom (i : Z) (s substr : string) : Z :=
  if HasPrefix s substr then i
  else match s with
       | EmptyString => -1
       | String _ s' => IndexFrom (i + 1) s' substr
       end.

Definition Index (s substr : string) : Z := IndexFrom 0 s substr.

(** [strings.Contains(s, substr)] is [Index(s, substr) >= 0]. *)
Definition Contains (s substr : string) : bool := Index s substr >=? 0.

(** [strings.Join(elems, sep)] *)
Fixpoint Join (elems : list string) (sep : string) : string :=
  match elems with
  | [] => EmptyString
  | [e] => e
  | e :: rest => (e ++ sep ++ Join rest sep)%string
  end.

End strings.

(** ** Go error values: [context.Canceled], leaf errors, and
    [github.com/pkg/errors.Wrap] *)
Module errors.

Inductive error : Type :=
| Canceled                                (* context.Canceled *)
| New (msg : string)                      (* any other leaf error *)
| Wrap (cause : error) (msg : string).    (* errors.Wrap(cause, msg), cause non-nil *)

(** [err.Error()] *)
Fixpoint Error (err : error) : string :=
  match err with
  | Canceled => "context canceled"
  | New msg => msg
  | Wrap cause msg => (msg ++ ": " ++ Error cause)%string
  end.

(** [std_errors.Is(err, context.Canceled)]: walks the [Unwrap] chain. *)
Fixpoint IsCanceled (err : error) : bool :=
  match err with
  | Canceled => true
  | New _ => false
  | Wrap cause _ => IsCanceled cause
  end.

End errors.
Export errors.

(** ** Go's [regexp] package, for the one pattern the file compiles *)
Module regexp.

(** [strings.CutPrefix]: what follows [prefix] in [s], when [s] starts with it. *)
Fixpoint CutPrefix (s prefix : string) {struct prefix} : option string :=
  match prefix, s with
  | EmptyString, _ => Some s
  | String _ _, EmptyString => None
  | String p prefix', String c s' =>
      if Ascii.eqb c p then CutPrefix s' prefix' else None
  end.

(** The bytes a run of [.] can cover from the start of [s]: [.] matches
    every byte but the newline. *)
Fixpoint dot_run (s : string) : string :=
  match s with
  | EmptyString => EmptyString
  | String c s' => if Ascii.eqb c "010" then EmptyString else String c (dot_run s')
  end.

(** The greedy [(.+)\)] on [t], whose first byte has offset [i]: the offset
    of the last [)] that has at least one byte before it. *)
Fixpoint last_close (i : nat) (t : string) : option nat :=
  match t with
  | EmptyString => None
  | String c t' =>
      match last_close (S i) t' with
      | Some j => Some j
      | None => if Ascii.eqb c ")" && (1 <=? i)%nat then Some i else None
      end
  end.

(** A match of [LowCardinality\((.+)\)] at the start of [s]: submatch 1 and
    the length of the whole match (leftmost-first semantics, so the longest
    [.+] wins). *)
Definition match_here (s : string) : option (string * nat) :=
  match CutPrefix s "LowCardinality(" with
  | None => None
  | Some t =>
      match last_close 0 (dot_run t) with
      | None => None
      | Some j => Some (substring 0 j t, (String.length "LowCardinality(" + j + 1)%nat)
      end
  end.

(** [ReplaceAllString] scans left to right; after a match it resumes at the
    end of the match, which [skip] counts down to. *)
Fixpoint replace_from (skip : nat) (s : string) : string :=
  match s with
  | EmptyString => EmptyString
  | String c s' =>
      match skip with
      | S k => replace_from k s'
      | O =>
          match match_here s with
          | Some (group1, len) => (group1 ++ replace_from (len - 1) s')%string
          | None => String c (replace_from 0 s')
          end
      end
  end.

(** [lowCardinalityRegexp.ReplaceAllString(src, "$1")] *)
Definition lowCardinalityRegexp_ReplaceAllString (src : string) : string :=
  replace_from 0 src.

End regexp.

(** ** Package [model] *)
Module model.

(** A bound value of a row ([interface{}]); no property depends on it. *)
Inductive value : Type :=
| VNil
| VInt (n : Z)
| VString (s : string).

Record ColumnWithType : Type :=
  { Name : string; Type_ : string; SourceName : string }.

(** [Row] is a slice that may be nil. *)
Record MsgRow : Type := { Row : option (list value) }.

Record Batch : Type :=
  { MsgRows : list MsgRow; RealSize : Z; BatchIdx : Z }.

End model.

(** ** Package [config] *)
Module config.

Module dim.
Record t : Type := { Name : string; Type_ : string; SourceName : string }.
End dim.

Record TaskConfig : Type :=
  { Name : string;
    Clickhouse : string;
    TableName : string;
    AutoSchema : bool;
    ExcludeColumns : list string;
    Dims : list dim.t }.

Record ClickHouseConfig : Type := { DB : string; RetryTimes : Z }.

End config.

(** ** Package [util] *)
Module util.

(** Modelled from the spec: [util.StringContains] is not part of the file;
    the spec reads it as "name is present in a caller-supplied
    exclude-list". *)
Definition StringContains (arr : list string) (str : string) : bool :=
  existsb (String.eqb str) arr.

End util.

(** ** Package [statistics]: the four counters the file touches *)
Module statistics.

Inductive metric : Type :=
| FlushBatchBacklog
| ClickhouseReconnectTotal
| FlushMsgsTotal
| FlushMsgsErrorTotal.

Definition metric_eqb (m1 m2 : metric) : bool :=
  match m1, m2 with
  | FlushBatchBacklog, FlushBatchBacklog
  | ClickhouseReconnectTotal, ClickhouseReconnectTotal
  | FlushMsgsTotal, FlushMsgsTotal
  | FlushMsgsErrorTotal, FlushMsgsErrorTotal => true
  | _, _ => false
  end.

End statistics.
Export statistics.

(** ** The calls the file makes into its collaborators *)
Inductive event : Type :=
| EvGetConn (name : string) (idx : Z)        (* pool.GetConn(name, idx) *)
| EvBegin                                    (* conn.Begin() *)
| EvPrepare (sql : string)                   (* tx.Prepare(sql) *)
| EvExec (row : list model.value)            (* stmt.Exec(row...) *)
| EvCommit                                   (* tx.Commit() *)
| EvStmtClose                                (* stmt.Close(), deferred *)
| EvReConnect                                (* conn.ReConnect() *)
| EvMetricAdd (m : metric) (label : string) (delta : Z)
                                             (* m.WithLabelValues(label).Add/Inc/Dec *)
| EvCallback (batch : model.Batch)           (* callback(batch) *)
| EvSleep (seconds : Z).                     (* time.Sleep *)

(** What the connection answers during one call of [write]; [Exec i] is the
    answer to [stmt.Exec] on the element of [MsgRows] at index [i]. *)
Record Attempt : Type :=
  { Begin : option error;
    Prepare : option error;
    Exec : nat -> option error;
    Commit : option error;
    ReConnect : option error }.

(** Go [int]: 64-bit two's complement. *)
Definition int_wrap (z : Z) : Z := (z + 2 ^ 63) mod 2 ^ 64 - 2 ^ 63.

(** ** Package [output] *)
Module output.

Record ClickHouse : Type :=
  { Dims : list model.ColumnWithType;
    taskCfg : config.TaskConfig;
    chCfg : config.ClickHouseConfig;
    prepareSQL : string;
    dms : list string }.

Definition selectSQLTemplate (db table : string) : string :=
  ("select name, type, default_kind from system.columns where database = '"
     ++ db ++ "' and table = '" ++ table ++ "'")%string.

(** [shouldReconnect] (lines 127-133); the [log.Info] call of the false
    branch is not recorded. *)
Definition shouldReconnect (err : error) : bool :=
  if strings.Contains (Error err) "connection refused"
     || strings.Contains (Error err) "bad connection"
  then true
  else false.

(** The block that follows a failed [Begin], [Prepare] and [Commit]
    (lines 82-85, 93-96, 117-120): the answer of [ReConnect] is dropped. *)
Definition reconnect (a : Attempt) (c : ClickHouse) (err : error) : list event :=
  if shouldReconnect err
  then let _ := ReConnect a in
       [EvReConnect;
        EvMetricAdd ClickhouseReconnectTotal (config.Name (taskCfg c)) 1]
  else [].

(** The variables of the loop over [batch.MsgRows] (lines 101-109). *)
Record exec_state : Type :=
  { idx : nat; err : option error; numErr : Z; calls : list event }.

Definition exec_row (a : Attempt) (st : exec_state) (msgRow : model.MsgRow) : exec_state :=
  match model.Row msgRow with
  | Some row =>
      match Exec a (idx st) with
      | Some e =>
          {| idx := S (idx st);
             err := Some (Wrap e "");
             numErr := numErr st + 1;
             calls := calls st ++ [EvExec row] |}
      | None =>
          {| idx := S (idx st);
             err := None;
             numErr := numErr st;
             calls := calls st ++ [EvExec row] |}
      end
  | None =>
      {| idx := S (idx st); err := err st; numErr := numErr st; calls := calls st |}
  end.

Definition exec_rows (a : Attempt) (rows : list model.MsgRow) : exec_state :=
  fold_left (exec_row a) rows {| idx := 0; err := None; numErr := 0; calls := [] |}.

(** [write] (lines 74-125): the returned error and the calls made. *)
Definition write (a : Attempt) (c : ClickHouse) (batch : model.Batch)
  : option error * list event :=
  if (List.length (model.MsgRows batch) =? 0)%nat then (None, [])
  else
    let conn := [EvGetConn (config.Clickhouse (taskCfg c)) (model.BatchIdx batch)] in
    match Begin a with
    | Some e => (Some e, conn ++ [EvBegin] ++ reconnect a c e)
    | None =>
        let tx := conn ++ [EvBegin; EvPrepare (prepareSQL c)] in
        match Prepare a with
        | Some e => (Some e, tx ++ reconnect a c e)
        | None =>
            let st := exec_rows a (model.MsgRows batch) in
            match err st with
            | Some e => (Some e, tx ++ calls st ++ [EvStmtClose])
            | None =>
                match Commit a with
                | Some e0 =>
                    let e := Wrap e0 "" in
                    (Some e,
                     tx ++ calls st ++ [EvCommit] ++ reconnect a c e ++ [EvStmtClose])
                | None =>
                    (None,
                     tx ++ calls st
                        ++ [EvCommit;
                            EvMetricAdd FlushMsgsTotal (config.Name (taskCfg c))
                                        (model.RealSize batch);
                            EvStmtClose])
                end
            end
        end
    end.

(** The four ways one turn of the [for] loop of [loopWrite] ends. *)
Inductive branch : Type :=
| ReturnAfterCallback     (* line 143 *)
| ReturnCancelled         (* line 147 *)
| ReturnLoss              (* line 153 *)
| SleepAndLoop.           (* line 155 *)

(** One turn of the loop (lines 141-155) from the value [times] has at its
    start: the way it ends, the new value of [times], the calls made. *)
Definition loopWrite_turn (a : Attempt) (c : ClickHouse) (batch : model.Batch)
    (times : Z) : branch * Z * list event :=
  match write a c batch with
  | (None, ev) => (ReturnAfterCallback, times, ev ++ [EvCallback batch])
  | (Some e, ev) =>
      if IsCanceled e then (ReturnCancelled, times, ev)
      else
        let times := int_wrap (times - 1) in
        if times >? 0
        then (ReturnLoss, times,
              ev ++ [EvMetricAdd FlushMsgsErrorTotal (config.Name (taskCfg c))
                                 (model.RealSize batch)])
        else (SleepAndLoop, times, ev ++ [EvSleep 10])
  end.

(** The [for] loop, cut after [fuel] turns; [script k] is what the connection
    answers during turn [k].  [None] as the first component: the loop is
    still running when the fuel is spent. *)
Fixpoint loopWrite_for (fuel : nat) (script : nat -> Attempt) (k : nat)
    (c : ClickHouse) (batch : model.Batch) (times : Z)
  : option branch * Z * list event :=
  match fuel with
  | O => (None, times, [])
  | S fuel' =>
      match loopWrite_turn (script k) c batch times with
      | (SleepAndLoop, times', ev) =>
          match loopWrite_for fuel' script (S k) c batch times' with
          | (r, times'', ev') => (r, times'', ev ++ ev')
          end
      | (b, times', ev) => (Some b, times', ev)
      end
  end.

(** [loopWrite] (lines 136-157); the deferred [Dec] runs when it returns. *)
Definition loopWrite (fuel : nat) (script : nat -> Attempt) (c : ClickHouse)
    (batch : model.Batch) : option branch * Z * list event :=
  match loopWrite_for fuel script 0 c batch (config.RetryTimes (chCfg c)) with
  | (Some b, times, ev) =>
      (Some b, times,
       ev ++ [EvMetricAdd FlushBatchBacklog (config.Name (taskCfg c)) (-1)])
  | (None, times, ev) => (None, times, ev)
  end.

(** [Send] (lines 67-71) *)
Definition Send (fuel : nat) (script : nat -> Attempt) (c : ClickHouse)
    (batch : model.Batch) : option branch * Z * list event :=
  match loopWrite fuel script c batch with
  | (r, times, ev) =>
      (r, times, EvMetricAdd FlushBatchBacklog (config.Name (taskCfg c)) 1 :: ev)
  end.

(** A row of the catalog query: [(name, type, default_kind)]. *)
Definition catalog_row : Type := (string * string * string)%type.

(** The body of the loop over the result set (lines 176-180); [rs.Scan]
    fills the three variables from the row. *)
Definition scan_row (GetSourceName : string -> string) (c : ClickHouse)
    (dims : list model.ColumnWithType) (r : catalog_row)
  : list model.ColumnWithType :=
  let '(name, typ, defaultKind) := r in
  let typ := regexp.lowCardinalityRegexp_ReplaceAllString typ in
  if negb (util.StringContains (config.ExcludeColumns (taskCfg c)) name)
     && negb (String.eqb defaultKind "MATERIALIZED")
  then dims ++ [{| model.Name := name;
                   model.Type_ := typ;
                   model.SourceName := GetSourceName name |}]
  else dims.

(** [params[i] = v]; the index is always in range where it is used. *)
Fixpoint set_index (params : list string) (i : nat) (v : string) : list string :=
  match params, i with
  | [], _ => []
  | _ :: rest, O => v :: rest
  | p :: rest, S i' => p :: set_index rest i' v
  end.

(** [initSchema] (lines 164-206).  [GetSourceName] is [util.GetSourceName];
    [Query sql] is what [conn.Query(sql)] answers: an error, or the rows that
    [rs.Next] then yields. *)
Definition initSchema (GetSourceName : string -> string)
    (Query : string -> error + list catalog_row) (c : ClickHouse)
  : option error * ClickHouse :=
  let resolved :=
    if config.AutoSchema (taskCfg c)
    then
      match Query (selectSQLTemplate (config.DB (chCfg c)) (config.TableName (taskCfg c))) with
      | inl e => inl e
      | inr rs => inr (fold_left (scan_row GetSourceName c) rs [])
      end
    else
      inr (fold_left
             (fun dims dim =>
                dims ++ [{| model.Name := config.dim.Name dim;
                            model.Type_ := config.dim.Type_ dim;
                            model.SourceName := config.dim.SourceName dim |}])
             (config.Dims (taskCfg c)) [])
  in
  match resolved with
  | inl e => (Some e, c)
  | inr dims =>
      let dms := fold_left (fun dms d => dms ++ [model.Name d]) dims [] in
      let params := repeat EmptyString (List.length dims) in
      let params :=
        fold_left (fun params i => set_index params i "?")
                  (seq 0 (List.length params)) params in
      (None,
       {| Dims := dims;
          taskCfg := taskCfg c;
          chCfg := chCfg c;
          prepareSQL :=
            ("INSERT INTO " ++ config.DB (chCfg c) ++ "."
               ++ config.TableName (taskCfg c)
               ++ " (" ++ strings.Join dms "," ++ ") "
               ++ "VALUES (" ++ strings.Join params "," ++ ")")%string;
          dms := dms |})
  end.

End output.
Export output.

(* ===================================================================== *)
(** * Part II: what is observed of a run *)
(* ===================================================================== *)

(** [sub] occurs in [s] as a contiguous run of bytes. *)
Definition substring_of (sub s : string) : Prop :=
  exists pre post : string, s = (pre ++ sub ++ post)%string.

(** No byte of [s] is a newline. *)
Fixpoint single_line (s : string) : Prop :=
  match s with
  | EmptyString => True
  | String c s' => c <> "010"%char /\ single_line s'
  end.

(** How many bytes of [s] are [c]. *)
Fixpoint count_byte (c : ascii) (s : string) : nat :=
  match s with
  | EmptyString => O
  | String c' s' => ((if Ascii.eqb c' c then 1 else 0) + count_byte c s')%nat
  end.

Definition is_GetConn (e : event) : bool :=
  match e with EvGetConn _ _ => true | _ => false end.
Definition is_Begin (e : event) : bool :=
  match e with EvBegin => true | _ => false end.
Definition is_Prepare (e : event) : bool :=
  match e with EvPrepare _ => true | _ => false end.
Definition is_Exec (e : event) : bool :=
  match e with EvExec _ => true | _ => false end.
Definition is_Commit (e : event) : bool :=
  match e with EvCommit => true | _ => false end.
Definition is_ReConnect (e : event) : bool :=
  match e with EvReConnect => true | _ => false end.
Definition is_Callback (e : event) : bool :=
  match e with EvCallback _ => true | _ => false end.
Definition is_metric (m : metric) (e : event) : bool :=
  match e with EvMetricAdd m' _ _ => metric_eqb m m' | _ => false end.

(** How many calls of a kind a trace holds. *)
Definition count (kind : event -> bool) (t : list event) : nat :=
  List.length (filter kind t).

Arguments count kind t : simpl never.

(** What the calls of a trace add to the counter [m]. *)
Fixpoint metric_total (m : metric) (t : list event) : Z :=
  match t with
  | [] => 0
  | EvMetricAdd m' _ delta :: t' =>
      if metric_eqb m m' then delta + metric_total m t' else metric_total m t'
  | _ :: t' => metric_total m t'
  end.

(** The rows of a batch that [write] hands to [stmt.Exec], in order. *)
Fixpoint present_rows (rows : list model.MsgRow) : list (list model.value) :=
  match rows with
  | [] => []
  | r :: rest =>
      match model.Row r with
      | Some row => row :: present_rows rest
      | None => present_rows rest
      end
  end.

(** Every row of the batch that is not absent executes without error. *)
Definition rows_execute (a : Attempt) (rows : list model.MsgRow) : Prop :=
  forall (i : nat) (row : list model.value),
    nth_error rows i = Some {| model.Row := Some row |} -> Exec a i = None.

(** The call of [write] that fails, if one does. *)
Inductive stage : Type := AtBegin | AtPrepare | AtExec | AtCommit.

Definition failing_stage (a : Attempt) (batch : model.Batch) : option stage :=
  if (List.length (model.MsgRows batch) =? 0)%nat then None
  else match Begin a, Prepare a, err (exec_rows a (model.MsgRows batch)), Commit a with
       | Some _, _, _, _ => Some AtBegin
       | None, Some _, _, _ => Some AtPrepare
       | None, None, Some _, _ => Some AtExec
       | None, None, None, Some _ => Some AtCommit
       | None, None, None, None => None
       end.

(** The same script with another answer to [conn.ReConnect()]. *)
Definition with_ReConnect (r : option error) (a : Attempt) : Attempt :=
  {| Begin := Begin a; Prepare := Prepare a; Exec := Exec a;
     Commit := Commit a; ReConnect := r |}.

(** The insert statement in the spec's words:
    [INSERT INTO <database>.<table> (<col1,...,colN>) VALUES (<?,...,?>)],
    one placeholder per column. *)
Definition spec_insert_statement (database table : string) (cols : list string) : string :=
  ("INSERT INTO " ++ database ++ "." ++ table
     ++ " (" ++ strings.Join cols "," ++ ") VALUES ("
     ++ strings.Join (map (fun _ => "?") cols) "," ++ ")")%string.

(** The catalog rows the schema resolver keeps. *)
Definition discovered (excluded : list string) (r : catalog_row) : Prop :=
  let '(name, _, defaultKind) := r in
  ~ In name excluded /\ defaultKind <> "MATERIALIZED".

Definition discoveredb (excluded : list string) (r : catalog_row) : bool :=
  let '(name, _, defaultKind) := r in
  negb (existsb (String.eqb name) excluded) && negb (String.eqb defaultKind "MATERIALIZED").

(** Code side: the element that the body of the loop over the result set
    appends for a row it keeps (lines 177 and 179).  Its type is whatever the
    regexp replacement of line 177 returns. *)
Definition appended_column (GetSourceName : string -> string) (r : catalog_row)
  : model.ColumnWithType :=
  let '(name, typ, _) := r in
  {| model.Name := name;
     model.Type_ := regexp.lowCardinalityRegexp_ReplaceAllString typ;
     model.SourceName := GetSourceName name |}.

(** ** Concrete sinks, batches and scripts, for the examples below *)
Module sample.

Definition task : config.TaskConfig :=
  {| config.Name := "task";
     config.Clickhouse := "ch1";
     config.TableName := "table";
     config.AutoSchema := true;
     config.ExcludeColumns := ["name"];
     config.Dims := [] |}.

(** A sink whose retry budget is [n]. *)
Definition sink (n : Z) : ClickHouse :=
  {| Dims := [{| model.Name := "id"; model.Type_ := "Int32"; model.SourceName := "id" |}];
     taskCfg := task;
     chCfg := {| config.DB := "db"; config.RetryTimes := n |};
     prepareSQL := "INSERT INTO db.table (id) VALUES (?)";
     dms := ["id"] |}.

Definition row (n : Z) : model.MsgRow := {| model.Row := Some [model.VInt n] |}.

Definition empty_batch : model.Batch :=
  {| model.MsgRows := []; model.RealSize := 0; model.BatchIdx := 0 |}.

Definition two_rows : model.Batch :=
  {| model.MsgRows := [row 1; row 2]; model.RealSize := 2; model.BatchIdx := 0 |}.

(** Every call succeeds. *)
Definition healthy : Attempt :=
  {| Begin := None; Prepare := None; Exec := fun _ => None;
     Commit := None; ReConnect := None |}.

(** [conn.Begin()] fails on a broken connection. *)
Definition broken : Attempt :=
  {| Begin := Some (New "driver: bad connection"); Prepare := None;
     Exec := fun _ => None; Commit := None; ReConnect := None |}.

(** [conn.Begin()] is abandoned because the context is cancelled. *)
Definition cancelled : Attempt :=
  {| Begin := Some Canceled; Prepare := None;
     Exec := fun _ => None; Commit := None; ReConnect := None |}.

(** [stmt.Exec] fails on the first row only. *)
Definition first_row_rejected : Attempt :=
  {| Begin := None; Prepare := None;
     Exec := fun i => match i with
                      | O => Some (New "clickhouse: type mismatch")
                      | S _ => None
                      end;
     Commit := None; ReConnect := None |}.

(** [stmt.Exec] fails on every row, on a broken connection. *)
Definition exec_on_broken : Attempt :=
  {| Begin := None; Prepare := None;
     Exec := fun _ => Some (New "driver: bad connection");
     Commit := None; ReConnect := None |}.

(** The connection is broken during the first two turns, then healthy. *)
Definition recovers (k : nat) : Attempt :=
  match k with
  | O | S O => broken
  | _ => healthy
  end.

(** The connection is broken during the first two turns; during the third
    the context is cancelled. *)
Definition gets_cancelled (k : nat) : Attempt :=
  match k with
  | O | S O => broken
  | _ => cancelled
  end.

(** The catalog of the spec's end-to-end scenario. *)
Definition catalog : list catalog_row :=
  [("id", "Int32", "");
   ("name", "String", "");
   ("tags", "LowCardinality(String)", "");
   ("computed_col", "Int32", "MATERIALIZED")].

Definition Query (_ : string) : error + list catalog_row := inr catalog.

Definition GetSourceName (name : string) : string := name.

End sample.

(** ** The remaining entry points of the sink *)

(** [Init] (lines 59-64): the error of [initSchema], or nil. *)
Definition Init (GetSourceName : string -> string)
    (Query : string -> error + list catalog_row) (c : ClickHouse)
  : option error * ClickHouse :=
  match initSchema GetSourceName Query c with
  | (Some e, c') => (Some e, c')
  | (None, c') => (None, c')
  end.

(** [Close] (lines 160-162) *)
Definition Close (c : ClickHouse) : option error := None.

(** ** Further observations *)

Definition is_Sleep (e : event) : bool :=
  match e with EvSleep _ => true | _ => false end.
Definition is_StmtClose (e : event) : bool :=
  match e with EvStmtClose => true | _ => false end.

(** The present rows, from index [i] on, whose [stmt.Exec] fails. *)
Fixpoint failed_execs (a : Attempt) (i : nat) (rows : list model.MsgRow) : Z :=
  match rows with
  | [] => 0
  | r :: rest =>
      match model.Row r, Exec a i with
      | Some _, Some _ => 1 + failed_execs a (S i) rest
      | _, _ => failed_execs a (S i) rest
      end
  end.

(** Whether a turn of the loop ended the way [b] names. *)
Definition is_branch (b b' : branch) : bool :=
  match b, b' with
  | ReturnAfterCallback, ReturnAfterCallback
  | ReturnCancelled, ReturnCancelled
  | ReturnLoss, ReturnLoss
  | SleepAndLoop, SleepAndLoop => true
  | _, _ => false
  end.

Definition once (happened : bool) : nat := if happened then 1%nat else O.

(** Whether the loop returned, and the way [b] names. *)
Definition ended (b : branch) (r : option branch) : bool :=
  match r with
  | Some b' => is_branch b b'
  | None => false
  end.

Definition returned (r : option branch) : bool :=
  match r with Some _ => true | None => false end.

(** The descriptor [initSchema] copies from a configured dimension. *)
Definition configured (d : config.dim.t) : model.ColumnWithType :=
  {| model.Name := config.dim.Name d;
     model.Type_ := config.dim.Type_ d;
     model.SourceName := config.dim.SourceName d |}.

(** ** Further sinks and scripts for the examples *)
Module sample2.

(** A task with a static schema; one configured column is on the exclude
    list and one keeps a wrapped type. *)
Definition static_task : config.TaskConfig :=
  {| config.Name := "task";
     config.Clickhouse := "ch1";
     config.TableName := "table";
     config.AutoSchema := false;
     config.ExcludeColumns := ["name"];
     config.Dims :=
       [{| config.dim.Name := "name"; config.dim.Type_ := "String";
           config.dim.SourceName := "n" |};
        {| config.dim.Name := "tags"; config.dim.Type_ := "LowCardinality(String)";
           config.dim.SourceName := "t" |}] |}.

Definition static_sink : ClickHouse :=
  {| Dims := []; taskCfg := static_task;
     chCfg := {| config.DB := "db"; config.RetryTimes := 3 |};
     prepareSQL := EmptyString; dms := [] |}.

(** The catalog query fails. *)
Definition no_catalog (_ : string) : error + list catalog_row :=
  inl (New "dial tcp: connection refused").

(** A present row between two absent ones. *)
Definition sparse : model.Batch :=
  {| model.MsgRows := [{| model.Row := None |}; sample.row 7; {| model.Row := None |}];
     model.RealSize := 1; model.BatchIdx := 4 |}.

(** [tx.Prepare] fails on a broken connection. *)
Definition prepare_broken : Attempt :=
  {| Begin := None; Prepare := Some (New "driver: bad connection");
     Exec := fun _ => None; Commit := None; ReConnect := None |}.

(** [tx.Commit] fails on a broken connection; [ReConnect] fails too. *)
Definition commit_broken : Attempt :=
  {| Begin := None; Prepare := None; Exec := fun _ => None;
     Commit := Some (New "write: connection refused");
     ReConnect := Some (New "dial tcp: connection refused") |}.

(** [stmt.Exec] rejects the element at index 1. *)
Definition second_rejected : Attempt :=
  {| Begin := None; Prepare := None;
     Exec := fun i => match i with
                      | S O => Some (New "clickhouse: type mismatch")
                      | _ => None
                      end;
     Commit := None; ReConnect := None |}.

End sample2.

(** ** The wrapper in the spec's words *)

(** [s] without the parenthesis that closes the one opened just before it,
    [depth] parentheses being open inside. *)
Fixpoint drop_closing (depth : nat) (s : string) : option string :=
  match s with
  | EmptyString => None
  | String c s' =>
      if Ascii.eqb c "("
      then option_map (String c) (drop_closing (S depth) s')
      else if Ascii.eqb c ")"
           then match depth with
                | O => Some s'
                | S d => option_map (String c) (drop_closing d s')
                end
           else option_map (String c) (drop_closing depth s')
  end.

(** In the spec's words: the type with a single [LowCardinality(...)]
    wrapper stripped to its inner type.  The wrapper is the first
    [LowCardinality(] with the parenthesis that closes it; the inner type
    stays where the wrapper was.  A type without a wrapper is kept. *)
Fixpoint spec_strip_wrapper (typ : string) : string :=
  match regexp.CutPrefix typ "LowCardinality(" with
  | Some inner_and_rest =>
      match drop_closing 0 inner_and_rest with
      | Some stripped => stripped
      | None => typ
      end
  | None =>
      match typ with
      | EmptyString => EmptyString
      | String c typ' => String c (spec_strip_wrapper typ')
      end
  end.

Module sample3.

(** A catalog with a wrapper inside a tuple and inside a map. *)
Definition catalog : list catalog_row :=
  [("id", "Int32", "");
   ("pair", "Tuple(LowCardinality(String), Int32)", "");
   ("attrs", "Map(LowCardinality(String), String)", "")].

Definition Query (_ : string) : error + list catalog_row := inr catalog.

End sample3.

(* ===================================================================== *)
(** * Part III: the properties *)
(* ===================================================================== *)

Section StringFacts.

Lemma HasPrefix_spec (prefix s : string) :
  strings.HasPrefix s prefix = true <-> exists post, s = (prefix ++ post)%string.
Proof.
  revert s; induction prefix as [|p prefix IH]; intros s; simpl.
  - split; [intros _; now exists s | reflexivity].
  - destruct s as [|c s]; simpl.
    + split; [discriminate | intros [post H]; discriminate].
    + rewrite andb_true_iff, Ascii.eqb_eq, IH. split.
      * intros [-> [post ->]]. now exists post.
      * intros [post H]. injection H as -> ->. split; [reflexivity | now exists post].
Qed.

Lemma IndexFrom_found (s substr : string) (i : Z) :
  0 <= i ->
  (0 <= strings.IndexFrom i s substr <-> substring_of substr s).
Proof.
  revert i; induction s as [|c s IH]; intros i Hi; simpl.
  - destruct (strings.HasPrefix "" substr) eqn:E.
    + split; [intros _ | lia].
      apply HasPrefix_spec in E as [post E]. exists "", post. exact E.
    + split; [lia |]. intros [pre [post H]].
      assert (strings.HasPrefix "" substr = true); [|congruence].
      apply HasPrefix_spec. destruct pre; [now exists post | discriminate].
  - destruct (strings.HasPrefix (String c s) substr) eqn:E.
    + split; [intros _ | lia].
      apply HasPrefix_spec in E as [post E]. exists "", post. exact E.
    + rewrite (IH (i + 1)) by lia. split.
      * intros [pre [post ->]]. now exists (String c pre), post.
      * intros [pre [post H]]. destruct pre as [|c' pre]; simpl in H.
        -- assert (strings.HasPrefix (String c s) substr = true); [|congruence].
           apply HasPrefix_spec. now exists post.
        -- injection H as _ ->. now exists pre, post.
Qed.

Lemma Contains_spec (s substr : string) :
  strings.Contains s substr = true <-> substring_of substr s.
Proof.
  unfold strings.Contains, strings.Index.
  rewrite <- (IndexFrom_found s substr 0) by lia.
  rewrite Z.geb_le. reflexivity.
Qed.

End StringFacts.

(** C6: [shouldReconnect err] is a function of the error's message alone and
    is true exactly when the message contains "connection refused" or
    "bad connection"; the match is case-sensitive, so a message that differs
    only in case is rejected. *)
Theorem shouldReconnect_iff_substring :
  (forall err : error,
      shouldReconnect err = true <->
      substring_of "connection refused" (Error err) \/
      substring_of "bad connection" (Error err)) /\
  (forall err : error,
      shouldReconnect err = false <->
      ~ (substring_of "connection refused" (Error err) \/
         substring_of "bad connection" (Error err))) /\
  (forall e1 e2 : error, Error e1 = Error e2 -> shouldReconnect e1 = shouldReconnect e2) /\
  shouldReconnect (New "dial tcp 10.0.0.1:9000: connect: connection refused") = true /\
  shouldReconnect (New "driver: bad connection") = true /\
  shouldReconnect (New "driver: Bad Connection") = false /\
  shouldReconnect (New "CONNECTION REFUSED") = false.
Proof.
  assert (Hiff : forall err : error,
      shouldReconnect err = true <->
      substring_of "connection refused" (Error err) \/
      substring_of "bad connection" (Error err)).
  { intros err. unfold shouldReconnect.
    rewrite <- !Contains_spec.
    destruct (strings.Contains (Error err) "connection refused");
      destruct (strings.Contains (Error err) "bad connection"); simpl; intuition congruence. }
  split; [exact Hiff |]. split.
  - intros err. rewrite <- Hiff. destruct (shouldReconnect err); intuition congruence.
  - split; [intros e1 e2 H; unfold shouldReconnect; now rewrite H |].
    repeat split; reflexivity.
Qed.

(** ** Traces *)
Section TraceFacts.

Lemma count_nil (kind : event -> bool) : count kind [] = O.
Proof. reflexivity. Qed.

Lemma count_cons (kind : event -> bool) (e : event) (t : list event) :
  count kind (e :: t) = ((if kind e then 1 else 0) + count kind t)%nat.
Proof. unfold count. simpl. now destruct (kind e). Qed.

Lemma count_app (kind : event -> bool) (t1 t2 : list event) :
  count kind (t1 ++ t2) = (count kind t1 + count kind t2)%nat.
Proof. unfold count. now rewrite filter_app, length_app. Qed.

Lemma metric_total_app (m : metric) (t1 t2 : list event) :
  metric_total m (t1 ++ t2) = metric_total m t1 + metric_total m t2.
Proof.
  induction t1 as [|e t1 IH]; simpl; [reflexivity |].
  destruct e; try exact IH.
  destruct (metric_eqb m m0); lia.
Qed.

Lemma count_Exec_calls (kind : event -> bool) (rows : list (list model.value)) :
  (forall row, kind (EvExec row) = false) ->
  count kind (map EvExec rows) = O.
Proof.
  intros H. unfold count.
  induction rows as [|r rows IH]; simpl; [reflexivity |].
  now rewrite H.
Qed.

Lemma count_is_Exec_calls (rows : list (list model.value)) :
  count is_Exec (map EvExec rows) = List.length rows.
Proof.
  unfold count. induction rows as [|r rows IH]; simpl; [reflexivity | now rewrite IH].
Qed.

Lemma metric_total_Exec_calls (m : metric) (rows : list (list model.value)) :
  metric_total m (map EvExec rows) = 0.
Proof. induction rows as [|r rows IH]; simpl; [reflexivity | exact IH]. Qed.

Lemma count_ReConnect_Exec_calls (rows : list (list model.value)) :
  count is_ReConnect (map EvExec rows) = O.
Proof. now apply count_Exec_calls. Qed.

Lemma count_Commit_Exec_calls (rows : list (list model.value)) :
  count is_Commit (map EvExec rows) = O.
Proof. now apply count_Exec_calls. Qed.

Lemma count_Callback_Exec_calls (rows : list (list model.value)) :
  count is_Callback (map EvExec rows) = O.
Proof. now apply count_Exec_calls. Qed.

Lemma count_GetConn_Exec_calls (rows : list (list model.value)) :
  count is_GetConn (map EvExec rows) = O.
Proof. now apply count_Exec_calls. Qed.

Lemma count_metric_Exec_calls (m : metric) (rows : list (list model.value)) :
  count (is_metric m) (map EvExec rows) = O.
Proof. now apply count_Exec_calls. Qed.

End TraceFacts.

Create Rewrite HintDb trace.
#[local] Hint Rewrite count_nil count_cons count_app metric_total_app metric_total_Exec_calls
  count_is_Exec_calls count_ReConnect_Exec_calls count_Commit_Exec_calls
  count_Callback_Exec_calls count_GetConn_Exec_calls count_metric_Exec_calls : trace.

(** ** The loop over the rows *)
Section ExecFacts.

Variable a : Attempt.

Lemma exec_fold_calls (rows : list model.MsgRow) (st : exec_state) :
  calls (fold_left (exec_row a) rows st) = calls st ++ map EvExec (present_rows rows).
Proof.
  revert st; induction rows as [|r rows IH]; intros st; simpl.
  - now rewrite app_nil_r.
  - rewrite IH. unfold exec_row.
    destruct (model.Row r) as [row|]; [|reflexivity].
    destruct (Exec a (idx st)); simpl; now rewrite <- app_assoc.
Qed.

(** Every present row is handed to [stmt.Exec], in the order of the batch,
    whatever the earlier rows answered. *)
Lemma exec_rows_calls (rows : list model.MsgRow) :
  calls (exec_rows a rows) = map EvExec (present_rows rows).
Proof. unfold exec_rows. now rewrite exec_fold_calls. Qed.

Lemma exec_fold_ok (rows : list model.MsgRow) (st : exec_state) :
  (forall i row, nth_error rows i = Some {| model.Row := Some row |} ->
                 Exec a (idx st + i)%nat = None) ->
  err st = None ->
  err (fold_left (exec_row a) rows st) = None.
Proof.
  revert st; induction rows as [|r rows IH]; intros st Hrows Herr; simpl; [exact Herr |].
  apply IH.
  - intros i row Hi.
    replace (idx (exec_row a st r) + i)%nat with (idx st + S i)%nat.
    + apply Hrows with (row := row). exact Hi.
    + unfold exec_row. destruct (model.Row r); [destruct (Exec a (idx st))|]; simpl; lia.
  - unfold exec_row. destruct r as [[row|]]; simpl; [|exact Herr].
    specialize (Hrows O row eq_refl). rewrite Nat.add_0_r in Hrows.
    now rewrite Hrows.
Qed.

Lemma exec_rows_ok (rows : list model.MsgRow) :
  rows_execute a rows -> err (exec_rows a rows) = None.
Proof.
  intros H. unfold exec_rows. apply exec_fold_ok; [|reflexivity].
  intros i row Hi. simpl. now apply H with (row := row).
Qed.

End ExecFacts.

(** ** One call of [write] *)
Section WriteFacts.

Variables (a : Attempt) (c : ClickHouse) (batch : model.Batch).

Lemma length_eqb_0 (A : Type) (l : list A) :
  (List.length l =? 0)%nat = false <-> l <> [].
Proof. destruct l; simpl; split; congruence. Qed.

Lemma count_reconnect (e : error) :
  count is_ReConnect (reconnect a c e) = if shouldReconnect e then 1%nat else O.
Proof. unfold reconnect. now destruct (shouldReconnect e). Qed.

Lemma metric_total_reconnect (e : error) :
  metric_total ClickhouseReconnectTotal (reconnect a c e)
  = if shouldReconnect e then 1 else 0.
Proof. unfold reconnect. now destruct (shouldReconnect e). Qed.

Lemma count_metric_reconnect (m : metric) (e : error) :
  count (is_metric m) (reconnect a c e)
  = if shouldReconnect e && metric_eqb m ClickhouseReconnectTotal then 1%nat else O.
Proof. unfold reconnect. destruct (shouldReconnect e); [destruct m|]; reflexivity. Qed.

(** [errors.Wrap(err, "")] puts ": " before the message, which neither
    adds nor removes an occurrence of the two substrings. *)
Lemma shouldReconnect_Wrap (e : error) :
  shouldReconnect (Wrap e "") = shouldReconnect e.
Proof.
  unfold shouldReconnect, strings.Contains, strings.Index. cbn [Error].
  change ("" ++ ": " ++ Error e)%string with (String ":" (String " " (Error e))).
  cbn [strings.IndexFrom strings.HasPrefix Ascii.eqb Bool.eqb andb].
  assert (H : forall sub,
             (strings.IndexFrom (0 + 1 + 1) (Error e) sub >=? 0)
             = (strings.IndexFrom 0 (Error e) sub >=? 0)).
  { intros sub. apply eq_true_iff_eq.
    rewrite !Z.geb_le, !IndexFrom_found by lia. reflexivity. }
  now rewrite !H.
Qed.

End WriteFacts.

#[local] Hint Rewrite count_reconnect metric_total_reconnect count_metric_reconnect
  exec_rows_calls : trace.

(** C5: on a batch without rows [write] returns nil at once and makes no
    call at all: no connection is taken, no transaction begun, no statement
    prepared, no row executed, no counter touched. *)
Theorem write_empty_batch (a : Attempt) (c : ClickHouse) (batch : model.Batch) :
  model.MsgRows batch = [] ->
  write a c batch = (None, []).
Proof. intros H. unfold write. now rewrite H. Qed.

Lemma write_empty_batch_witness :
  model.MsgRows sample.empty_batch = [] /\
  write sample.broken (sample.sink 3) sample.empty_batch = (None, []).
Proof.
  split; [reflexivity |].
  apply (write_empty_batch sample.broken (sample.sink 3) sample.empty_batch).
  reflexivity.
Defined.

(** C10: when [conn.Begin()] fails, [write] returns that very error after
    the calls [GetConn], [Begin] and, for an error the classifier accepts,
    [ReConnect] and one increment of the reconnect counter: no statement is
    prepared, no row executed, nothing committed, and no other counter is
    touched. *)
Theorem write_begin_failure (a : Attempt) (c : ClickHouse) (batch : model.Batch)
    (e : error) :
  model.MsgRows batch <> [] ->
  Begin a = Some e ->
  exists tr : list event,
    write a c batch = (Some e, tr) /\
    tr = [EvGetConn (config.Clickhouse (taskCfg c)) (model.BatchIdx batch); EvBegin]
           ++ (if shouldReconnect e
               then [EvReConnect;
                     EvMetricAdd ClickhouseReconnectTotal (config.Name (taskCfg c)) 1]
               else []) /\
    count is_Prepare tr = O /\
    count is_Exec tr = O /\
    count is_Commit tr = O /\
    (forall m, m <> ClickhouseReconnectTotal -> count (is_metric m) tr = O).
Proof.
  intros Hrows Hbegin. apply length_eqb_0 in Hrows.
  unfold write. rewrite Hrows, Hbegin. unfold reconnect.
  eexists. split; [reflexivity |]. split; [reflexivity |].
  destruct (shouldReconnect e); simpl; repeat split; try reflexivity;
    intros m Hm; destruct m; try reflexivity; congruence.
Qed.

Lemma write_begin_failure_witness :
  model.MsgRows sample.two_rows <> [] /\
  Begin sample.broken = Some (New "driver: bad connection") /\
  exists tr : list event,
    write sample.broken (sample.sink 3) sample.two_rows
    = (Some (New "driver: bad connection"), tr).
Proof.
  split; [discriminate |]. split; [reflexivity |].
  destruct (write_begin_failure sample.broken (sample.sink 3) sample.two_rows
              (New "driver: bad connection")) as [tr [H _]];
    [discriminate | reflexivity |].
  exists tr. exact H.
Defined.

(** Counts the calls of a trace that [write] built, given what the
    classifier says of the error. *)
Ltac count_calls Hs :=
  repeat (progress (simpl; autorewrite with trace)); rewrite ?Hs; simpl;
  repeat split; try reflexivity; try lia.

(** ** The outcome of the loop over the rows *)
Section RowFailures.

Variables (a : Attempt) (c : ClickHouse) (batch : model.Batch).

Lemma exec_fold_idx (rows : list model.MsgRow) (st : exec_state) :
  idx (fold_left (exec_row a) rows st) = (idx st + List.length rows)%nat.
Proof.
  revert st; induction rows as [|r rows IH]; intros st; simpl; [lia |].
  rewrite IH. unfold exec_row.
  destruct (model.Row r); [destruct (Exec a (idx st))|]; simpl; lia.
Qed.

(** After the loop [err] is what [stmt.Exec] answered on the last present
    row: each call assigns it anew. *)
Lemma exec_rows_last (rows : list model.MsgRow) (row : list model.value) :
  err (exec_rows a (rows ++ [{| model.Row := Some row |}]))
  = match Exec a (List.length rows) with
    | Some e => Some (Wrap e "")
    | None => None
    end.
Proof.
  unfold exec_rows. rewrite fold_left_app. simpl. unfold exec_row at 1. simpl.
  rewrite exec_fold_idx. simpl.
  now destruct (Exec a (List.length rows)).
Qed.

(** When [err] is set after the loop, [write] returns it and does not
    commit. *)
Lemma write_row_failure (e : error) :
  model.MsgRows batch <> [] ->
  Begin a = None -> Prepare a = None ->
  err (exec_rows a (model.MsgRows batch)) = Some e ->
  exists tr, write a c batch = (Some e, tr) /\ count is_Commit tr = O
             /\ count is_Exec tr = List.length (present_rows (model.MsgRows batch)).
Proof.
  intros Hrows Hb Hp He. apply length_eqb_0 in Hrows.
  unfold write. rewrite Hrows, Hb, Hp, He.
  eexists. split; [reflexivity |].
  autorewrite with trace. simpl. split; lia.
Qed.

End RowFailures.

(** C2, at a batch of two rows whose first row is rejected by [stmt.Exec]
    and whose second row executes: [write] runs both rows, then commits,
    counts the batch as flushed and returns nil. *)
Theorem write_commits_after_rejected_row :
  Exec sample.first_row_rejected 0 = Some (New "clickhouse: type mismatch") /\
  write sample.first_row_rejected (sample.sink 3) sample.two_rows
  = (None,
     [EvGetConn "ch1" 0; EvBegin; EvPrepare "INSERT INTO db.table (id) VALUES (?)";
      EvExec [model.VInt 1]; EvExec [model.VInt 2];
      EvCommit; EvMetricAdd FlushMsgsTotal "task" 2; EvStmtClose]).
Proof. split; reflexivity. Qed.

(** C9, at a batch whose rows [stmt.Exec] rejects on a broken connection:
    the error [write] returns is one the classifier accepts, and yet
    [ReConnect] is not called and the reconnect counter is not touched. *)
Lemma write_exec_failure_never_reconnects :
  write sample.exec_on_broken (sample.sink 3) sample.two_rows
  = (Some (Wrap (New "driver: bad connection") ""),
     [EvGetConn "ch1" 0; EvBegin; EvPrepare "INSERT INTO db.table (id) VALUES (?)";
      EvExec [model.VInt 1]; EvExec [model.VInt 2]; EvStmtClose]) /\
  shouldReconnect (Wrap (New "driver: bad connection") "") = true /\
  count is_ReConnect
    (snd (write sample.exec_on_broken (sample.sink 3) sample.two_rows)) = O /\
  metric_total ClickhouseReconnectTotal
    (snd (write sample.exec_on_broken (sample.sink 3) sample.two_rows)) = 0.
Proof. repeat split; reflexivity. Qed.

(** The reconnect block where [write] runs it: when a call of [write]
    fails in [Begin], [Prepare] or [Commit] with an error the classifier
    accepts, [ReConnect] is called once and the reconnect counter incremented
    once; whenever the returned error is one the classifier rejects, there is
    no reconnect and no increment; and what [ReConnect] answers changes
    nothing of the outcome. *)
Theorem write_reconnects_once (a : Attempt) (c : ClickHouse) (batch : model.Batch)
    (e : error) (tr : list event) :
  write a c batch = (Some e, tr) ->
  (failing_stage a batch <> Some AtExec ->
   shouldReconnect e = true ->
   count is_ReConnect tr = 1%nat /\
   count (is_metric ClickhouseReconnectTotal) tr = 1%nat /\
   metric_total ClickhouseReconnectTotal tr = 1) /\
  (shouldReconnect e = false ->
   count is_ReConnect tr = O /\
   count (is_metric ClickhouseReconnectTotal) tr = O /\
   metric_total ClickhouseReconnectTotal tr = 0) /\
  (forall r : option error, write (with_ReConnect r a) c batch = (Some e, tr)).
Proof.
  unfold write, failing_stage.
  destruct (List.length (model.MsgRows batch) =? 0)%nat; [discriminate |].
  destruct (Begin a) as [e0|] eqn:Hb.
  { intros H; injection H as <- <-.
    split; [intros _ Hs | split; [intros Hs | intros r]].
    - count_calls Hs.
    - count_calls Hs.
    - simpl. now rewrite Hb. }
  destruct (Prepare a) as [e0|] eqn:Hp.
  { intros H; injection H as <- <-.
    split; [intros _ Hs | split; [intros Hs | intros r]].
    - count_calls Hs.
    - count_calls Hs.
    - simpl. now rewrite Hb, Hp. }
  destruct (err (exec_rows a (model.MsgRows batch))) as [e0|] eqn:He.
  { intros H; injection H as <- <-.
    split; [intros Hst; now elim Hst | split; [intros Hs | intros r]].
    - count_calls Hs.
    - simpl. rewrite Hb, Hp.
      change (exec_rows (with_ReConnect r a)) with (exec_rows a). now rewrite He. }
  destruct (Commit a) as [e0|] eqn:Hc; [|discriminate].
  intros H; injection H as <- <-.
  split; [intros _ Hs | split; [intros Hs | intros r]].
  - count_calls Hs.
  - count_calls Hs.
  - simpl. rewrite Hb, Hp.
    change (exec_rows (with_ReConnect r a)) with (exec_rows a). now rewrite He, Hc.
Qed.

Lemma write_reconnects_once_witness :
  write sample.broken (sample.sink 3) sample.two_rows
  = (Some (New "driver: bad connection"),
     [EvGetConn "ch1" 0; EvBegin; EvReConnect;
      EvMetricAdd ClickhouseReconnectTotal "task" 1]) /\
  failing_stage sample.broken sample.two_rows <> Some AtExec /\
  shouldReconnect (New "driver: bad connection") = true /\
  count is_ReConnect
    [EvGetConn "ch1" 0; EvBegin; EvReConnect;
     EvMetricAdd ClickhouseReconnectTotal "task" 1] = 1%nat /\
  metric_total ClickhouseReconnectTotal
    [EvGetConn "ch1" 0; EvBegin; EvReConnect;
     EvMetricAdd ClickhouseReconnectTotal "task" 1] = 1.
Proof.
  split; [reflexivity |]. split; [discriminate |]. split; [reflexivity |].
  destruct (write_reconnects_once sample.broken (sample.sink 3) sample.two_rows
              (New "driver: bad connection")
              [EvGetConn "ch1" 0; EvBegin; EvReConnect;
               EvMetricAdd ClickhouseReconnectTotal "task" 1] eq_refl)
    as [Hone _].
  destruct Hone as (H1 & _ & H3); [discriminate | reflexivity |].
  split; [exact H1 | exact H3].
Defined.

(** ** What a call of [write] leaves in the trace *)
Section WriteOutcomes.

Variables (a : Attempt) (c : ClickHouse) (batch : model.Batch).

(** [write] never calls the callback and never touches the loss counter. *)
Lemma write_frame (r : option error) (tr : list event) :
  write a c batch = (r, tr) ->
  count is_Callback tr = O /\
  count (is_metric FlushMsgsErrorTotal) tr = O /\
  metric_total FlushMsgsErrorTotal tr = 0.
Proof.
  unfold write.
  destruct (List.length (model.MsgRows batch) =? 0)%nat;
    [intros H; injection H as <- <-; now repeat split |].
  destruct (Begin a) as [e|];
    [intros H; injection H as <- <-; unfold reconnect;
     destruct (shouldReconnect e); now repeat split |].
  destruct (Prepare a) as [e|];
    [intros H; injection H as <- <-; unfold reconnect;
     destruct (shouldReconnect e); now repeat split |].
  destruct (err (exec_rows a (model.MsgRows batch))) as [e|];
    [intros H; injection H as <- <-; count_calls I |].
  destruct (Commit a) as [e|]; intros H; injection H as <- <-.
  - unfold reconnect. destruct (shouldReconnect (Wrap e "")); count_calls I.
  - count_calls I.
Qed.

(** A failed call has not touched the flushed-rows counter and has taken
    the connection once. *)
Lemma write_failure_frame (e : error) (tr : list event) :
  write a c batch = (Some e, tr) ->
  count (is_metric FlushMsgsTotal) tr = O /\
  metric_total FlushMsgsTotal tr = 0 /\
  count is_GetConn tr = 1%nat.
Proof.
  unfold write.
  destruct (List.length (model.MsgRows batch) =? 0)%nat; [discriminate |].
  destruct (Begin a) as [e0|];
    [intros H; injection H as <- <-; unfold reconnect;
     destruct (shouldReconnect e0); count_calls I |].
  destruct (Prepare a) as [e0|];
    [intros H; injection H as <- <-; unfold reconnect;
     destruct (shouldReconnect e0); count_calls I |].
  destruct (err (exec_rows a (model.MsgRows batch))) as [e0|];
    [intros H; injection H as <- <-; count_calls I |].
  destruct (Commit a) as [e0|]; [|discriminate].
  intros H; injection H as <- <-. unfold reconnect.
  destruct (shouldReconnect (Wrap e0 "")); count_calls I.
Qed.

(** A call in which every step succeeds. *)
Lemma write_success :
  model.MsgRows batch <> [] ->
  Begin a = None -> Prepare a = None ->
  rows_execute a (model.MsgRows batch) ->
  Commit a = None ->
  write a c batch
  = (None,
     [EvGetConn (config.Clickhouse (taskCfg c)) (model.BatchIdx batch);
      EvBegin; EvPrepare (prepareSQL c)]
       ++ map EvExec (present_rows (model.MsgRows batch))
       ++ [EvCommit;
           EvMetricAdd FlushMsgsTotal (config.Name (taskCfg c)) (model.RealSize batch);
           EvStmtClose]).
Proof.
  intros Hrows Hb Hp Hx Hc. apply length_eqb_0 in Hrows.
  unfold write. rewrite Hrows, Hb, Hp, (exec_rows_ok a _ Hx), Hc.
  now rewrite exec_rows_calls.
Qed.

End WriteOutcomes.

(** ** The retry loop *)
Section LoopFacts.

Variables (script : nat -> Attempt) (c : ClickHouse) (batch : model.Batch).

Lemma int_wrap_small (z : Z) : - 2 ^ 63 <= z < 2 ^ 63 -> int_wrap z = z.
Proof. intros H. unfold int_wrap. rewrite Z.mod_small; lia. Qed.

(** A turn that goes back to the top of the loop has called neither the
    callback nor the flushed-rows or loss counters. *)
Lemma turn_loops_frame (a : Attempt) (times times' : Z) (ev : list event) :
  loopWrite_turn a c batch times = (SleepAndLoop, times', ev) ->
  count is_Callback ev = O /\
  count (is_metric FlushMsgsTotal) ev = O /\ metric_total FlushMsgsTotal ev = 0 /\
  count (is_metric FlushMsgsErrorTotal) ev = O /\ metric_total FlushMsgsErrorTotal ev = 0.
Proof.
  unfold loopWrite_turn.
  destruct (write a c batch) as [[e|] tr] eqn:Hw; [|discriminate].
  destruct (IsCanceled e); [discriminate |].
  destruct (int_wrap (times - 1) >? 0); [discriminate |].
  intros H; injection H as <- <-.
  destruct (write_frame _ _ _ _ _ Hw) as (H1 & H2 & H3).
  destruct (write_failure_frame _ _ _ _ _ Hw) as (H4 & H5 & _).
  autorewrite with trace. simpl. rewrite H1, H2, H3, H4, H5. now repeat split.
Qed.

(** While the loop is still running none of these calls has been made. *)
Lemma loop_running_frame (fuel k : nat) (times times' : Z) (ev : list event) :
  loopWrite_for fuel script k c batch times = (None, times', ev) ->
  count is_Callback ev = O /\
  count (is_metric FlushMsgsTotal) ev = O /\ metric_total FlushMsgsTotal ev = 0 /\
  count (is_metric FlushMsgsErrorTotal) ev = O /\ metric_total FlushMsgsErrorTotal ev = 0.
Proof.
  revert k times times' ev; induction fuel as [|fuel IH]; intros k times times' ev; simpl.
  - intros H; injection H as <- <-. now repeat split.
  - destruct (loopWrite_turn (script k) c batch times) as [[b t1] ev1] eqn:Ht.
    destruct b; try discriminate.
    destruct (loopWrite_for fuel script (S k) c batch t1) as [[r t2] ev2] eqn:Hl.
    intros H; injection H as -> <- <-.
    destruct (turn_loops_frame _ _ _ _ Ht) as (H1 & H2 & H3 & H4 & H5).
    destruct (IH _ _ _ _ Hl) as (G1 & G2 & G3 & G4 & G5).
    autorewrite with trace. rewrite H1, H2, H3, H4, H5, G1, G2, G3, G4, G5.
    now repeat split.
Qed.

(** A loop still running after [n] turns goes on from turn [k + n]. *)
Lemma loop_resume (n fuel k : nat) (times times' : Z) (ev : list event) :
  loopWrite_for n script k c batch times = (None, times', ev) ->
  loopWrite_for (n + fuel) script k c batch times
  = match loopWrite_for fuel script (k + n) c batch times' with
    | (r, times'', ev') => (r, times'', ev ++ ev')
    end.
Proof.
  revert k times times' ev; induction n as [|n IH]; intros k times times' ev; simpl.
  - intros H; injection H as <- <-. rewrite Nat.add_0_r.
    now destruct (loopWrite_for fuel script k c batch times) as [[r t] ev'].
  - destruct (loopWrite_turn (script k) c batch times) as [[b t1] ev1] eqn:Ht.
    destruct b; try discriminate.
    destruct (loopWrite_for n script (S k) c batch t1) as [[r t2] ev2] eqn:Hl.
    intros H; injection H as Hr Ht2 Hev. subst r times' ev.
    rewrite (IH _ _ _ _ Hl). replace (S k + n)%nat with (k + S n)%nat by lia.
    destruct (loopWrite_for fuel script (k + S n) c batch t2) as [[r' t'] ev'].
    now rewrite app_assoc.
Qed.

End LoopFacts.

(** On a batch without rows the first attempt succeeds without a call, so
    the callback is called and no counter but the backlog is touched. *)
Lemma loopWrite_empty_batch (fuel : nat) (script : nat -> Attempt)
    (c : ClickHouse) (batch : model.Batch) :
  model.MsgRows batch = [] ->
  loopWrite (S fuel) script c batch
  = (Some ReturnAfterCallback, config.RetryTimes (chCfg c),
     [EvCallback batch;
      EvMetricAdd FlushBatchBacklog (config.Name (taskCfg c)) (-1)]).
Proof.
  intros Hrows. unfold loopWrite. simpl. unfold loopWrite_turn, write.
  now rewrite Hrows.
Qed.

(** C3: when an attempt of the loop is a successful one (the transaction
    begins, the statement is prepared, every present row executes, the commit
    succeeds; [n] turns came before it), [loopWrite] returns after it, having
    called the callback exactly once, with the batch, and having added to the
    flushed-rows counter exactly once, the batch's [RealSize]. *)
Theorem loopWrite_success_callback (n fuel : nat) (script : nat -> Attempt)
    (c : ClickHouse) (batch : model.Batch) (times : Z) (pre : list event) :
  loopWrite_for n script 0 c batch (config.RetryTimes (chCfg c)) = (None, times, pre) ->
  model.MsgRows batch <> [] ->
  Begin (script n) = None ->
  Prepare (script n) = None ->
  rows_execute (script n) (model.MsgRows batch) ->
  Commit (script n) = None ->
  exists tr : list event,
    loopWrite (n + S fuel) script c batch = (Some ReturnAfterCallback, times, tr) /\
    count is_Callback tr = 1%nat /\
    In (EvCallback batch) tr /\
    count (is_metric FlushMsgsTotal) tr = 1%nat /\
    metric_total FlushMsgsTotal tr = model.RealSize batch.
Proof.
  intros Hpre Hrows Hb Hp Hx Hc.
  destruct (loop_running_frame _ _ _ _ _ _ _ _ Hpre) as (H1 & H2 & H3 & _).
  unfold loopWrite. rewrite (loop_resume _ _ _ _ _ _ _ _ _ Hpre). simpl.
  unfold loopWrite_turn. rewrite (write_success _ c _ Hrows Hb Hp Hx Hc).
  eexists. split; [reflexivity |].
  split; [| split; [| split]].
  - count_calls I.
  - repeat (rewrite in_app_iff; simpl). intuition auto.
  - count_calls I.
  - count_calls I.
Qed.

Lemma loopWrite_success_callback_witness :
  exists tr : list event,
    loopWrite 3 sample.recovers (sample.sink 1) sample.two_rows
    = (Some ReturnAfterCallback, -1, tr) /\
    count is_Callback tr = 1%nat /\
    In (EvCallback sample.two_rows) tr /\
    count (is_metric FlushMsgsTotal) tr = 1%nat /\
    metric_total FlushMsgsTotal tr = 2.
Proof.
  apply (loopWrite_success_callback 2 0 sample.recovers (sample.sink 1)
           sample.two_rows (-1)
           [EvGetConn "ch1" 0; EvBegin; EvReConnect;
            EvMetricAdd ClickhouseReconnectTotal "task" 1; EvSleep 10;
            EvGetConn "ch1" 0; EvBegin; EvReConnect;
            EvMetricAdd ClickhouseReconnectTotal "task" 1; EvSleep 10]).
  - reflexivity.
  - discriminate.
  - reflexivity.
  - reflexivity.
  - intros i row _. reflexivity.
  - reflexivity.
Defined.

(** C4: when an attempt of the loop returns an error that is a cancellation
    ([n] turns came before it), [loopWrite] returns at once: the trace ends
    with the calls of that attempt and the deferred decrement of the backlog,
    [times] is what it was before the attempt, the callback is not called and
    the loss counter is not touched. *)
Theorem loopWrite_cancelled (n fuel : nat) (script : nat -> Attempt)
    (c : ClickHouse) (batch : model.Batch) (times : Z) (pre ev : list event)
    (e : error) :
  loopWrite_for n script 0 c batch (config.RetryTimes (chCfg c)) = (None, times, pre) ->
  write (script n) c batch = (Some e, ev) ->
  IsCanceled e = true ->
  loopWrite_turn (script n) c batch times = (ReturnCancelled, times, ev) /\
  loopWrite (n + S fuel) script c batch
  = (Some ReturnCancelled, times,
     pre ++ ev ++ [EvMetricAdd FlushBatchBacklog (config.Name (taskCfg c)) (-1)]) /\
  count is_Callback
    (pre ++ ev ++ [EvMetricAdd FlushBatchBacklog (config.Name (taskCfg c)) (-1)]) = O /\
  count (is_metric FlushMsgsErrorTotal)
    (pre ++ ev ++ [EvMetricAdd FlushBatchBacklog (config.Name (taskCfg c)) (-1)]) = O /\
  metric_total FlushMsgsErrorTotal
    (pre ++ ev ++ [EvMetricAdd FlushBatchBacklog (config.Name (taskCfg c)) (-1)]) = 0.
Proof.
  intros Hpre Hw Hcancel.
  destruct (loop_running_frame _ _ _ _ _ _ _ _ Hpre) as (H1 & _ & _ & H4 & H5).
  destruct (write_frame _ _ _ _ _ Hw) as (G1 & G2 & G3).
  assert (Hturn : loopWrite_turn (script n) c batch times = (ReturnCancelled, times, ev)).
  { unfold loopWrite_turn. now rewrite Hw, Hcancel. }
  split; [exact Hturn |]. split.
  - unfold loopWrite. rewrite (loop_resume _ _ _ _ _ _ _ _ _ Hpre). simpl.
    rewrite Hturn. now rewrite <- app_assoc.
  - autorewrite with trace. simpl. rewrite H1, H4, H5, G1, G2, G3. now repeat split.
Qed.

Lemma loopWrite_cancelled_witness :
  loopWrite 3 sample.gets_cancelled (sample.sink 1) sample.two_rows
  = (Some ReturnCancelled, -1,
     [EvGetConn "ch1" 0; EvBegin; EvReConnect;
      EvMetricAdd ClickhouseReconnectTotal "task" 1; EvSleep 10;
      EvGetConn "ch1" 0; EvBegin; EvReConnect;
      EvMetricAdd ClickhouseReconnectTotal "task" 1; EvSleep 10]
       ++ [EvGetConn "ch1" 0; EvBegin]
       ++ [EvMetricAdd FlushBatchBacklog "task" (-1)]).
Proof.
  apply (loopWrite_cancelled 2 0 sample.gets_cancelled (sample.sink 1)
           sample.two_rows (-1)
           [EvGetConn "ch1" 0; EvBegin; EvReConnect;
            EvMetricAdd ClickhouseReconnectTotal "task" 1; EvSleep 10;
            EvGetConn "ch1" 0; EvBegin; EvReConnect;
            EvMetricAdd ClickhouseReconnectTotal "task" 1; EvSleep 10]
           [EvGetConn "ch1" 0; EvBegin] Canceled).
  - reflexivity.
  - reflexivity.
  - reflexivity.
Defined.

(** ** The retry budget *)
Section Budget.

Variables (script : nat -> Attempt) (c : ClickHouse) (batch : model.Batch).

(** With a budget of two or more, the first failure that is not a
    cancellation already takes the loss branch: [times] is then still
    positive. *)
Lemma first_failure_is_reported_lost (fuel : nat) (e : error) (ev : list event) :
  2 <= config.RetryTimes (chCfg c) < 2 ^ 63 ->
  write (script O) c batch = (Some e, ev) ->
  IsCanceled e = false ->
  loopWrite (S fuel) script c batch
  = (Some ReturnLoss, config.RetryTimes (chCfg c) - 1,
     ev ++ [EvMetricAdd FlushMsgsErrorTotal (config.Name (taskCfg c))
                        (model.RealSize batch)]
        ++ [EvMetricAdd FlushBatchBacklog (config.Name (taskCfg c)) (-1)]).
Proof.
  intros Hn Hw Hc. unfold loopWrite. simpl. unfold loopWrite_turn.
  rewrite Hw, Hc, int_wrap_small by lia.
  destruct (config.RetryTimes (chCfg c) - 1 >? 0) eqn:E; [|lia].
  now rewrite <- app_assoc.
Qed.

(** Once [times] is at most one, failures that are not cancellations keep
    the loop turning: every turn calls [write] again, and the loss branch is
    not taken. *)
Lemma failures_keep_the_loop_turning (fuel k : nat) (times : Z) :
  (forall j, exists e ev, write (script j) c batch = (Some e, ev) /\ IsCanceled e = false) ->
  - 2 ^ 63 + Z.of_nat fuel <= times <= 1 ->
  exists ev,
    loopWrite_for fuel script k c batch times = (None, times - Z.of_nat fuel, ev) /\
    count is_GetConn ev = fuel.
Proof.
  intros Hfail. revert k times; induction fuel as [|fuel IH]; intros k times Ht.
  - exists []. simpl. split; [f_equal; f_equal; lia | reflexivity].
  - destruct (Hfail k) as (e & ev & Hw & Hc).
    destruct (IH (S k) (times - 1)) as (ev' & Hl & Hn); [lia |].
    exists (ev ++ [EvSleep 10] ++ ev'). simpl. unfold loopWrite_turn.
    rewrite Hw, Hc, int_wrap_small by lia.
    destruct (times - 1 >? 0) eqn:E; [lia |].
    rewrite Hl. split; [f_equal; [f_equal; lia | now rewrite <- app_assoc] |].
    destruct (write_failure_frame _ _ _ _ _ Hw) as (_ & _ & H1).
    autorewrite with trace. simpl. rewrite H1, Hn. reflexivity.
Qed.

(** The same failure at every turn: the trace is the calls of the failed
    attempt and the sleep, once per turn. *)
Lemma same_failure_every_turn (a : Attempt) (e : error) (ev : list event)
    (fuel k : nat) (times : Z) :
  write a c batch = (Some e, ev) ->
  IsCanceled e = false ->
  - 2 ^ 63 + Z.of_nat fuel <= times <= 1 ->
  loopWrite_for fuel (fun _ => a) k c batch times
  = (None, times - Z.of_nat fuel, concat (repeat (ev ++ [EvSleep 10]) fuel)).
Proof.
  intros Hw Hc. revert k times; induction fuel as [|fuel IH]; intros k times Ht.
  - simpl. f_equal. f_equal. lia.
  - simpl. unfold loopWrite_turn. rewrite Hw, Hc, int_wrap_small by lia.
    destruct (times - 1 >? 0) eqn:E; [lia |].
    rewrite IH by lia. f_equal. f_equal. lia.
Qed.

Lemma count_turns (kind : event -> bool) (t : list event) (n : nat) :
  count kind (concat (repeat t n)) = (n * count kind t)%nat.
Proof.
  induction n as [|n IH]; simpl; [reflexivity |].
  now rewrite count_app, IH.
Qed.

End Budget.

(** C1, at a connection that stays broken.  With a budget of 3 the loop
    reports the batch lost after the first attempt, while [times] is still 2.
    With a budget of 1 the loss branch is never reached: after any number of
    turns the loop is still running and has called [write] and [ReConnect] in
    each of them. *)
Theorem loopWrite_budget_test_inverted :
  (forall fuel : nat,
      loopWrite (S fuel) (fun _ => sample.broken) (sample.sink 3) sample.two_rows
      = (Some ReturnLoss, 2,
         [EvGetConn "ch1" 0; EvBegin; EvReConnect;
          EvMetricAdd ClickhouseReconnectTotal "task" 1;
          EvMetricAdd FlushMsgsErrorTotal "task" 2;
          EvMetricAdd FlushBatchBacklog "task" (-1)])) /\
  (forall fuel : nat,
      Z.of_nat fuel <= 2 ^ 63 ->
      exists ev : list event,
        loopWrite fuel (fun _ => sample.broken) (sample.sink 1) sample.two_rows
        = (None, 1 - Z.of_nat fuel, ev) /\
        ev = concat (repeat [EvGetConn "ch1" 0; EvBegin; EvReConnect;
                             EvMetricAdd ClickhouseReconnectTotal "task" 1;
                             EvSleep 10] fuel) /\
        count is_GetConn ev = fuel /\
        count is_ReConnect ev = fuel /\
        count (is_metric FlushMsgsErrorTotal) ev = O).
Proof.
  split.
  - intros fuel.
    apply (first_failure_is_reported_lost (fun _ => sample.broken) (sample.sink 3)
             sample.two_rows fuel (New "driver: bad connection")
             [EvGetConn "ch1" 0; EvBegin; EvReConnect;
              EvMetricAdd ClickhouseReconnectTotal "task" 1]).
    + simpl. lia.
    + reflexivity.
    + reflexivity.
  - intros fuel Hfuel. eexists. unfold loopWrite.
    change (config.RetryTimes (chCfg (sample.sink 1))) with 1.
    rewrite (same_failure_every_turn (sample.sink 1) sample.two_rows sample.broken
               (New "driver: bad connection")
               [EvGetConn "ch1" 0; EvBegin; EvReConnect;
                EvMetricAdd ClickhouseReconnectTotal "task" 1]);
      [| reflexivity | reflexivity | lia].
    split; [reflexivity |]. split; [reflexivity |].
    rewrite !count_turns. unfold count. simpl. repeat split; lia.
Qed.

(** ** The pattern [LowCardinality\((.+)\)] *)
Section RegexpFacts.

Lemma CutPrefix_app (prefix t : string) :
  regexp.CutPrefix (prefix ++ t) prefix = Some t.
Proof.
  induction prefix as [|p prefix IH]; simpl; [reflexivity |].
  now rewrite Ascii.eqb_refl.
Qed.

Lemma CutPrefix_Some (prefix s t : string) :
  regexp.CutPrefix s prefix = Some t -> s = (prefix ++ t)%string.
Proof.
  revert s; induction prefix as [|p prefix IH]; intros s; simpl.
  - now intros [= ->].
  - destruct s as [|ch s]; [discriminate |].
    destruct (Ascii.eqb ch p) eqn:E; [|discriminate].
    apply Ascii.eqb_eq in E as ->. intros H. now rewrite (IH _ H).
Qed.

Lemma dot_run_single_line (u v : string) :
  single_line u -> regexp.dot_run (u ++ String ")" v) = (u ++ regexp.dot_run (String ")" v))%string.
Proof.
  induction u as [|ch u IH]; intros Hu; [reflexivity |].
  destruct Hu as [Hch Hu]. cbn [append regexp.dot_run].
  destruct (Ascii.eqb ch "010") eqn:E; [apply Ascii.eqb_eq in E; contradiction |].
  now rewrite IH.
Qed.

Lemma substring_prefix (u v : string) :
  substring 0 (String.length u) (u ++ v) = u.
Proof.
  induction u as [|ch u IH]; simpl.
  - now destruct v.
  - now rewrite IH.
Qed.

Lemma length_append (u v : string) :
  String.length (u ++ v) = (String.length u + String.length v)%nat.
Proof. induction u as [|ch u IH]; simpl; [reflexivity | now rewrite IH]. Qed.

Lemma append_assoc (u v w : string) : ((u ++ v) ++ w = u ++ v ++ w)%string.
Proof. induction u as [|ch u IH]; simpl; [reflexivity | now rewrite IH]. Qed.

Lemma append_empty_r (u : string) : (u ++ EmptyString)%string = u.
Proof. induction u as [|ch u IH]; simpl; [reflexivity | now rewrite IH]. Qed.

Lemma count_byte_append (ch : ascii) (u v : string) :
  count_byte ch (u ++ v) = (count_byte ch u + count_byte ch v)%nat.
Proof. induction u as [|d u IH]; simpl; [reflexivity | rewrite IH; lia]. Qed.

Lemma HasPrefix_app_long (prefix u v : string) :
  (String.length prefix <= String.length u)%nat ->
  strings.HasPrefix (u ++ v) prefix = strings.HasPrefix u prefix.
Proof.
  revert u; induction prefix as [|p prefix IH]; intros u Hlen; [reflexivity |].
  destruct u as [|d u]; simpl in *; [lia |].
  rewrite IH by lia. reflexivity.
Qed.

Lemma CutPrefix_HasPrefix (prefix s : string) :
  strings.HasPrefix s prefix = false -> regexp.CutPrefix s prefix = None.
Proof.
  revert s; induction prefix as [|p prefix IH]; intros s; simpl; [discriminate |].
  destruct s as [|d s]; [reflexivity |].
  destruct (Ascii.eqb d p); simpl; [apply IH | reflexivity].
Qed.

Lemma last_close_none (s : string) (i : nat) :
  count_byte ")" s = O -> regexp.last_close i s = None.
Proof.
  revert i; induction s as [|ch s IH]; intros i Hs; [reflexivity |].
  simpl in *. destruct (Ascii.eqb ch ")"); [discriminate |].
  now rewrite IH.
Qed.

Lemma count_byte_dot_run (ch : ascii) (s : string) :
  count_byte ch s = O -> count_byte ch (regexp.dot_run s) = O.
Proof.
  induction s as [|d s IH]; intros Hs; [reflexivity |].
  simpl in *. destruct (Ascii.eqb d "010"); [reflexivity |].
  simpl. destruct (Ascii.eqb d ch); [discriminate | now apply IH].
Qed.

Lemma last_close_last (u v : string) (i : nat) :
  (1 <= i + String.length u)%nat ->
  count_byte ")" v = O ->
  regexp.last_close i (u ++ String ")" v) = Some (i + String.length u)%nat.
Proof.
  revert i; induction u as [|ch u IH]; intros i Hi Hv; simpl in *.
  - rewrite last_close_none by exact Hv.
    destruct i as [|i]; [lia |]. simpl. f_equal. lia.
  - rewrite IH by (lia || exact Hv). f_equal. lia.
Qed.

(** Where the pattern matches at the start of the string. *)
Lemma match_here_wrapper (inner post : string) :
  inner <> EmptyString ->
  single_line inner ->
  count_byte ")" post = O ->
  regexp.match_here ("LowCardinality(" ++ inner ++ String ")" post)
  = Some (inner, (String.length "LowCardinality(" + String.length inner + 1)%nat).
Proof.
  intros Hne Hline Hpost. unfold regexp.match_here. rewrite CutPrefix_app.
  rewrite (dot_run_single_line inner post Hline).
  change (regexp.dot_run (String ")" post)) with (String ")" (regexp.dot_run post)).
  rewrite last_close_last.
  - simpl. now rewrite substring_prefix.
  - destruct inner; [contradiction | simpl; lia].
  - now apply count_byte_dot_run.
Qed.

(** Where no [)] follows, the pattern does not match. *)
Lemma match_here_no_close (s : string) :
  count_byte ")" s = O -> regexp.match_here s = None.
Proof.
  intros Hs. unfold regexp.match_here.
  destruct (regexp.CutPrefix s "LowCardinality(") as [t|] eqn:Hc; [|reflexivity].
  apply CutPrefix_Some in Hc. subst s. rewrite count_byte_append in Hs.
  rewrite last_close_none; [reflexivity |].
  apply count_byte_dot_run. lia.
Qed.

Lemma replace_from_no_close (s : string) :
  count_byte ")" s = O -> regexp.replace_from 0 s = s.
Proof.
  induction s as [|ch s IH]; intros Hs; [reflexivity |].
  cbn [regexp.replace_from]. rewrite (match_here_no_close _ Hs).
  rewrite IH; [reflexivity |].
  simpl in Hs. lia.
Qed.

Lemma replace_from_skip (u v : string) :
  regexp.replace_from (String.length u) (u ++ v) = regexp.replace_from 0 v.
Proof. induction u as [|ch u IH]; [reflexivity | exact IH]. Qed.

Lemma replace_from_first_match (pre inner post : string) (i : Z) :
  strings.IndexFrom i (pre ++ "LowCardinality(") "LowCardinality("
  = i + Z.of_nat (String.length pre) ->
  inner <> EmptyString ->
  single_line inner ->
  count_byte ")" post = O ->
  regexp.replace_from 0 (pre ++ "LowCardinality(" ++ inner ++ String ")" post)
  = (pre ++ inner ++ post)%string.
Proof.
  intros Hfirst Hne Hline Hpost.
  revert i Hfirst; induction pre as [|ch pre IH]; intros i Hfirst.
  - change (EmptyString ++ "LowCardinality(" ++ inner ++ String ")" post)%string
      with (String "L" ("owCardinality(" ++ inner ++ String ")" post)).
    cbn [regexp.replace_from].
    change (String "L" ("owCardinality(" ++ inner ++ String ")" post))
      with ("LowCardinality(" ++ inner ++ String ")" post)%string.
    rewrite (match_here_wrapper inner post Hne Hline Hpost).
    replace ("owCardinality(" ++ inner ++ String ")" post)%string
      with (("owCardinality(" ++ inner ++ ")") ++ post)%string
      by (rewrite !append_assoc; reflexivity).
    replace (String.length "LowCardinality(" + String.length inner + 1 - 1)%nat
      with (String.length ("owCardinality(" ++ inner ++ ")"))
      by (rewrite !length_append; simpl; lia).
    rewrite replace_from_skip, (replace_from_no_close post Hpost). reflexivity.
  - cbn [append strings.IndexFrom] in Hfirst.
    destruct (strings.HasPrefix (String ch (pre ++ "LowCardinality(")) "LowCardinality(")
      eqn:Hp; [simpl in Hfirst; lia |].
    assert (Hm : regexp.match_here
                   (String ch pre ++ "LowCardinality(" ++ inner ++ String ")" post)
                 = None).
    { unfold regexp.match_here. rewrite CutPrefix_HasPrefix; [reflexivity |].
      rewrite <- append_assoc, HasPrefix_app_long; [exact Hp |].
      rewrite length_append. simpl. lia. }
    remember ("LowCardinality(" ++ inner ++ String ")" post)%string as rest.
    change (String ch pre ++ rest)%string with (String ch (pre ++ rest)) in *.
    cbn [regexp.replace_from]. rewrite Hm, (IH (i + 1)); [reflexivity |].
    rewrite Hfirst. simpl String.length. lia.
Qed.

(** A type that holds one wrapper: [pre] ends where [LowCardinality(] first
    occurs, [inner] runs up to the last [)] of the type.  The opening and that
    [)] are removed. *)
Lemma ReplaceAllString_first_wrapper (pre inner post : string) :
  strings.Index (pre ++ "LowCardinality(") "LowCardinality("
  = Z.of_nat (String.length pre) ->
  inner <> EmptyString ->
  single_line inner ->
  count_byte ")" post = O ->
  regexp.lowCardinalityRegexp_ReplaceAllString
    (pre ++ "LowCardinality(" ++ inner ++ String ")" post)
  = (pre ++ inner ++ post)%string.
Proof.
  intros Hfirst. apply (replace_from_first_match pre inner post 0). exact Hfirst.
Qed.

(** A type that is one wrapper around [inner] is replaced by [inner]. *)
Lemma ReplaceAllString_wrapper (inner : string) :
  inner <> EmptyString ->
  single_line inner ->
  regexp.lowCardinalityRegexp_ReplaceAllString ("LowCardinality(" ++ inner ++ ")") = inner.
Proof.
  intros Hne Hline.
  rewrite <- (append_empty_r inner) at 2.
  apply (ReplaceAllString_first_wrapper EmptyString inner EmptyString);
    [reflexivity | exact Hne | exact Hline | reflexivity].
Qed.

(** A type in which [LowCardinality(] does not occur is left as it is. *)
Lemma ReplaceAllString_plain (typ : string) :
  ~ substring_of "LowCardinality(" typ ->
  regexp.lowCardinalityRegexp_ReplaceAllString typ = typ.
Proof.
  unfold regexp.lowCardinalityRegexp_ReplaceAllString.
  induction typ as [|ch typ IH]; intros Hno; [reflexivity |].
  cbn [regexp.replace_from].
  destruct (regexp.match_here (String ch typ)) as [[g len]|] eqn:Hm.
  - exfalso. apply Hno. unfold regexp.match_here in Hm.
    destruct (regexp.CutPrefix (String ch typ) "LowCardinality(") as [t|] eqn:Hc;
      [|discriminate].
    apply CutPrefix_Some in Hc. exists EmptyString, t. exact Hc.
  - rewrite IH; [reflexivity |].
    intros (pre & post & ->). apply Hno. now exists (String ch pre), post.
Qed.

(** The pattern is not anchored: inside a longer type it removes the first
    [LowCardinality(] and the last [)] of the line, and nothing else. *)
Example ReplaceAllString_nested :
  regexp.lowCardinalityRegexp_ReplaceAllString "Array(LowCardinality(String))"
  = "Array(String)" /\
  regexp.lowCardinalityRegexp_ReplaceAllString "LowCardinality(Nullable(String))"
  = "Nullable(String)" /\
  regexp.lowCardinalityRegexp_ReplaceAllString "Tuple(LowCardinality(String), Int32)"
  = "Tuple(String), Int32" /\
  regexp.lowCardinalityRegexp_ReplaceAllString
    "Map(LowCardinality(String), LowCardinality(String))"
  = "Map(String), LowCardinality(String)" /\
  regexp.lowCardinalityRegexp_ReplaceAllString "LowCardinality()" = "LowCardinality()".
Proof. repeat split; reflexivity. Qed.

End RegexpFacts.

(** ** The schema resolver *)
Section SchemaFacts.

Lemma fold_left_snoc (A B : Type) (f : A -> B) (l : list A) (acc : list B) :
  fold_left (fun acc x => acc ++ [f x]) l acc = acc ++ map f l.
Proof.
  revert acc; induction l as [|x l IH]; intros acc; simpl.
  - now rewrite app_nil_r.
  - rewrite IH. now rewrite <- app_assoc.
Qed.

Lemma StringContains_In (arr : list string) (str : string) :
  util.StringContains arr str = true <-> In str arr.
Proof.
  unfold util.StringContains. rewrite existsb_exists. split.
  - intros (x & Hx & E). apply String.eqb_eq in E. now subst.
  - intros H. exists str. split; [exact H | apply String.eqb_refl].
Qed.

Lemma discoveredb_spec (excluded : list string) (r : catalog_row) :
  discoveredb excluded r = true <-> discovered excluded r.
Proof.
  destruct r as [[name typ] defaultKind]. unfold discoveredb, discovered.
  rewrite andb_true_iff, !negb_true_iff.
  rewrite <- (StringContains_In excluded name). unfold util.StringContains.
  destruct (existsb (String.eqb name) excluded);
    destruct (String.eqb_spec defaultKind "MATERIALIZED"); intuition congruence.
Qed.

Lemma scan_rows (GetSourceName : string -> string) (c : ClickHouse)
    (rs : list catalog_row) (dims : list model.ColumnWithType) :
  fold_left (scan_row GetSourceName c) rs dims
  = dims ++ map (appended_column GetSourceName)
                (filter (discoveredb (config.ExcludeColumns (taskCfg c))) rs).
Proof.
  revert dims; induction rs as [|[[name typ] defaultKind] rs IH]; intros dims; simpl.
  - now rewrite app_nil_r.
  - rewrite IH. unfold util.StringContains.
    destruct (negb (existsb (String.eqb name) (config.ExcludeColumns (taskCfg c)))
              && negb (String.eqb defaultKind "MATERIALIZED")); simpl;
      [now rewrite <- app_assoc | reflexivity].
Qed.

Lemma set_index_middle (done rest : list string) (old v : string) (i : nat) :
  i = List.length done ->
  set_index (done ++ old :: rest) i v = done ++ v :: rest.
Proof.
  intros ->. induction done as [|d done IH]; simpl; [reflexivity | now rewrite IH].
Qed.

Lemma fill_params (m k : nat) :
  fold_left (fun params i => set_index params i "?") (seq k m)
            (repeat "?" k ++ repeat EmptyString m)
  = repeat "?" (k + m).
Proof.
  revert k; induction m as [|m IH]; intros k; simpl.
  - now rewrite app_nil_r, Nat.add_0_r.
  - rewrite set_index_middle by now rewrite repeat_length.
    replace (repeat "?" k ++ "?" :: repeat EmptyString m)
      with (repeat "?" (S k) ++ repeat EmptyString m).
    + rewrite IH. f_equal. lia.
    + change (repeat "?" (S k)) with ("?" :: repeat "?" k).
      rewrite repeat_cons, <- app_assoc. reflexivity.
Qed.

Lemma count_placeholders (n : nat) :
  count_byte "?" (strings.Join (repeat "?" n) ",") = n.
Proof.
  induction n as [|n IH]; [reflexivity |].
  destruct n as [|n]; [reflexivity |].
  change (strings.Join (repeat "?" (S (S n))) ",")
    with (String "?" (String "," (strings.Join (repeat "?" (S n)) ","))).
  cbn [count_byte]. rewrite IH. reflexivity.
Qed.

End SchemaFacts.

Section SchemaTheorems.

Variable GetSourceName : string -> string.
Variable Query : string -> error + list catalog_row.

Lemma map_placeholder (A : Type) (l : list A) :
  map (fun _ => "?"%string) l = repeat "?"%string (List.length l).
Proof. induction l as [|x l IH]; simpl; [reflexivity | now rewrite IH]. Qed.

(** What [initSchema] computes once the columns are resolved. *)
Lemma initSchema_resolved (c c' : ClickHouse) :
  initSchema GetSourceName Query c = (None, c') ->
  taskCfg c' = taskCfg c /\ chCfg c' = chCfg c /\
  dms c' = map model.Name (Dims c') /\
  prepareSQL c'
  = ("INSERT INTO " ++ config.DB (chCfg c) ++ "." ++ config.TableName (taskCfg c)
       ++ " (" ++ strings.Join (map model.Name (Dims c')) "," ++ ") VALUES ("
       ++ strings.Join (repeat "?" (List.length (Dims c'))) "," ++ ")")%string.
Proof.
  unfold initSchema.
  match goal with
  | |- context [match ?r with inl _ => _ | inr _ => _ end = _] =>
      destruct r as [e | dims]
  end; [discriminate |].
  intros H; injection H as <-. cbn [Dims dms prepareSQL taskCfg chCfg].
  rewrite fold_left_snoc, repeat_length.
  pose proof (fill_params (List.length dims) 0) as Hfill.
  cbn [repeat app Nat.add] in Hfill. rewrite Hfill.
  repeat split; reflexivity.
Qed.

(** What auto-discovery resolves: when the catalog query answers the rows
    [rs], [Dims] holds one element for each row whose name is not in the
    exclude list and whose [default_kind] is not "MATERIALIZED", in the order
    of the catalog, as the loop body appends it.  For a type that is
    [LowCardinality(inner)] as a whole the appended type is [inner], and a
    type without [LowCardinality(] is appended as it is. *)
Theorem initSchema_auto_discovery (c : ClickHouse) (rs : list catalog_row) :
  config.AutoSchema (taskCfg c) = true ->
  Query (selectSQLTemplate (config.DB (chCfg c)) (config.TableName (taskCfg c))) = inr rs ->
  exists c' : ClickHouse,
    initSchema GetSourceName Query c = (None, c') /\
    Dims c' = map (appended_column GetSourceName)
                  (filter (discoveredb (config.ExcludeColumns (taskCfg c))) rs) /\
    (forall r, discoveredb (config.ExcludeColumns (taskCfg c)) r = true
               <-> discovered (config.ExcludeColumns (taskCfg c)) r) /\
    (forall col,
        In col (Dims c') <->
        exists r, In r rs /\ discovered (config.ExcludeColumns (taskCfg c)) r
                  /\ col = appended_column GetSourceName r) /\
    (forall name inner defaultKind,
        inner <> EmptyString -> single_line inner ->
        appended_column GetSourceName
          (name, ("LowCardinality(" ++ inner ++ ")")%string, defaultKind)
        = {| model.Name := name; model.Type_ := inner;
             model.SourceName := GetSourceName name |}) /\
    (forall name typ defaultKind,
        ~ substring_of "LowCardinality(" typ ->
        appended_column GetSourceName (name, typ, defaultKind)
        = {| model.Name := name; model.Type_ := typ;
             model.SourceName := GetSourceName name |}).
Proof.
  intros Hauto Hq. unfold initSchema. rewrite Hauto, Hq.
  eexists. split; [reflexivity |]. cbn [Dims]. rewrite scan_rows. cbn [app].
  split; [reflexivity |]. split; [apply discoveredb_spec |]. split; [| split].
  - intros col. rewrite in_map_iff. split.
    + intros (r & <- & Hr). apply filter_In in Hr as [Hin Hk].
      exists r. rewrite <- discoveredb_spec. auto.
    + intros (r & Hin & Hk & ->). exists r. split; [reflexivity |].
      apply filter_In. rewrite discoveredb_spec. auto.
  - intros name inner defaultKind Hne Hline. unfold appended_column.
    now rewrite ReplaceAllString_wrapper.
  - intros name typ defaultKind Hno. unfold appended_column.
    now rewrite ReplaceAllString_plain.
Qed.

(** C8: the statement [initSchema] generates is
    [INSERT INTO <database>.<table> (<col1,...,colN>) VALUES (?,...,?)], the
    names of the resolved columns in resolved order and as many placeholders
    as there are resolved columns. *)
Theorem initSchema_insert_statement (c c' : ClickHouse) :
  initSchema GetSourceName Query c = (None, c') ->
  prepareSQL c'
  = spec_insert_statement (config.DB (chCfg c')) (config.TableName (taskCfg c'))
                          (map model.Name (Dims c')) /\
  prepareSQL c'
  = ("INSERT INTO " ++ config.DB (chCfg c') ++ "." ++ config.TableName (taskCfg c')
       ++ " (" ++ strings.Join (map model.Name (Dims c')) "," ++ ") VALUES ("
       ++ strings.Join (repeat "?" (List.length (Dims c'))) "," ++ ")")%string /\
  dms c' = map model.Name (Dims c') /\
  count_byte "?" (strings.Join (repeat "?" (List.length (Dims c'))) ",")
  = List.length (Dims c').
Proof.
  intros H. destruct (initSchema_resolved c c' H) as (Ht & Hc & Hd & Hsql).
  rewrite Ht, Hc, Hsql. unfold spec_insert_statement.
  rewrite map_placeholder, length_map.
  repeat split; try reflexivity; [exact Hd | apply count_placeholders].
Qed.

End SchemaTheorems.

Lemma initSchema_auto_discovery_witness :
  exists c' : ClickHouse,
    initSchema sample.GetSourceName sample.Query (sample.sink 3) = (None, c') /\
    Dims c' = map (appended_column sample.GetSourceName)
                  (filter (discoveredb ["name"]) sample.catalog).
Proof.
  destruct (initSchema_auto_discovery sample.GetSourceName sample.Query
              (sample.sink 3) sample.catalog) as (c' & H1 & H2 & _).
  - reflexivity.
  - reflexivity.
  - exists c'. split; [exact H1 | exact H2].
Defined.

(** The end-to-end scenario of the spec: columns [id], [name], [tags] (the
    last one wrapped) and a materialized [computed_col], with [name]
    excluded. *)
Example initSchema_scenario :
  exists c' : ClickHouse,
    initSchema sample.GetSourceName sample.Query (sample.sink 3) = (None, c') /\
    Dims c' = [{| model.Name := "id"; model.Type_ := "Int32"; model.SourceName := "id" |};
               {| model.Name := "tags"; model.Type_ := "String"; model.SourceName := "tags" |}] /\
    prepareSQL c' = "INSERT INTO db.table (id,tags) VALUES (?,?)".
Proof. eexists. repeat split; reflexivity. Qed.

Lemma initSchema_insert_statement_witness :
  initSchema sample.GetSourceName sample.Query (sample.sink 3)
  = (None,
     {| Dims := [{| model.Name := "id"; model.Type_ := "Int32"; model.SourceName := "id" |};
                 {| model.Name := "tags"; model.Type_ := "String"; model.SourceName := "tags" |}];
        taskCfg := sample.task;
        chCfg := {| config.DB := "db"; config.RetryTimes := 3 |};
        prepareSQL := "INSERT INTO db.table (id,tags) VALUES (?,?)";
        dms := ["id"; "tags"] |}) /\
  "INSERT INTO db.table (id,tags) VALUES (?,?)"
  = spec_insert_statement "db" "table" ["id"; "tags"].
Proof.
  split; [reflexivity |].
  apply (initSchema_insert_statement sample.GetSourceName sample.Query (sample.sink 3)
           {| Dims := [{| model.Name := "id"; model.Type_ := "Int32"; model.SourceName := "id" |};
                       {| model.Name := "tags"; model.Type_ := "String"; model.SourceName := "tags" |}];
              taskCfg := sample.task;
              chCfg := {| config.DB := "db"; config.RetryTimes := 3 |};
              prepareSQL := "INSERT INTO db.table (id,tags) VALUES (?,?)";
              dms := ["id"; "tags"] |}).
  reflexivity.
Defined.

(* ===================================================================== *)
(** * Part IV: further properties of the sink *)
(* ===================================================================== *)

(** ** More on traces *)
Section MoreTraceFacts.

Lemma count_Begin_Exec_calls (rows : list (list model.value)) :
  count is_Begin (map EvExec rows) = O.
Proof. now apply count_Exec_calls. Qed.

Lemma count_Prepare_Exec_calls (rows : list (list model.value)) :
  count is_Prepare (map EvExec rows) = O.
Proof. now apply count_Exec_calls. Qed.

Lemma count_StmtClose_Exec_calls (rows : list (list model.value)) :
  count is_StmtClose (map EvExec rows) = O.
Proof. now apply count_Exec_calls. Qed.

Lemma count_Sleep_Exec_calls (rows : list (list model.value)) :
  count is_Sleep (map EvExec rows) = O.
Proof. now apply count_Exec_calls. Qed.

Lemma filter_Exec_calls (rows : list (list model.value)) :
  filter is_Exec (map EvExec rows) = map EvExec rows.
Proof. induction rows as [|r rows IH]; simpl; [reflexivity | now rewrite IH]. Qed.

Lemma filter_Exec_reconnect (a : Attempt) (c : ClickHouse) (e : error) :
  filter is_Exec (reconnect a c e) = [].
Proof. unfold reconnect. now destruct (shouldReconnect e). Qed.

End MoreTraceFacts.

#[local] Hint Rewrite count_Begin_Exec_calls count_Prepare_Exec_calls
  count_StmtClose_Exec_calls count_Sleep_Exec_calls : trace.

(** Splits a statement about [write a c batch = (r, tr)] into the five ways
    [write] returns, with the trace of each. *)
Ltac write_cases a c batch :=
  unfold write;
  destruct (List.length (model.MsgRows batch) =? 0)%nat eqn:Hlen;
  [ intros [= <- <-]
  | destruct (Begin a) as [e0|] eqn:Hbegin;
    [ intros [= <- <-]
    | destruct (Prepare a) as [e0|] eqn:Hprepare;
      [ intros [= <- <-]
      | destruct (err (exec_rows a (model.MsgRows batch))) as [e0|] eqn:Herr;
        [ intros [= <- <-]
        | destruct (Commit a) as [e0|] eqn:Hcommit; intros [= <- <-] ] ] ] ].

(** Evaluates the counts of a trace of [write], whatever the classifier
    says. *)
Ltac trace_calc :=
  unfold reconnect;
  repeat match goal with
         | |- context [shouldReconnect ?e] => destruct (shouldReconnect e)
         end;
  repeat (progress (simpl; autorewrite with trace)); simpl.

(** ** One call of [write], continued *)

(** X1: a call of [write] takes the connection and begins a transaction at
    most once, prepares at most one statement, which is the sink's
    [prepareSQL], commits at most once, and closes the statement exactly when
    [tx.Prepare] was called and succeeded; the close is then its last call. *)
Theorem write_one_transaction (a : Attempt) (c : ClickHouse) (batch : model.Batch)
    (r : option error) (tr : list event) :
  write a c batch = (r, tr) ->
  (count is_GetConn tr <= 1)%nat /\
  count is_Begin tr = count is_GetConn tr /\
  (count is_Prepare tr <= count is_Begin tr)%nat /\
  (count is_Commit tr <= count is_Prepare tr)%nat /\
  (forall sql, In (EvPrepare sql) tr -> sql = prepareSQL c) /\
  count is_StmtClose tr
  = match Prepare a with None => count is_Prepare tr | Some _ => O end /\
  (count is_StmtClose tr = 1%nat -> exists tr', tr = tr' ++ [EvStmtClose]).
Proof.
  write_cases a c batch.
  - split; [trace_calc; lia |]. split; [trace_calc; lia |].
    split; [trace_calc; lia |]. split; [trace_calc; lia |]. split; [| split].
    + intros sql [].
    + destruct (Prepare a); trace_calc; reflexivity.
    + trace_calc; discriminate.
  - split; [trace_calc; lia |]. split; [trace_calc; lia |].
    split; [trace_calc; lia |]. split; [trace_calc; lia |]. split; [| split].
    + intros sql. unfold reconnect. destruct (shouldReconnect e0); simpl;
        intuition discriminate.
    + destruct (Prepare a); trace_calc; reflexivity.
    + trace_calc; discriminate.
  - split; [trace_calc; lia |]. split; [trace_calc; lia |].
    split; [trace_calc; lia |]. split; [trace_calc; lia |]. split; [| split].
    + intros sql. unfold reconnect. destruct (shouldReconnect e0); simpl;
        intuition congruence.
    + trace_calc; reflexivity.
    + trace_calc; discriminate.
  - split; [trace_calc; lia |]. split; [trace_calc; lia |].
    split; [trace_calc; lia |]. split; [trace_calc; lia |]. split; [| split].
    + intros sql. rewrite exec_rows_calls. simpl. rewrite in_app_iff, in_map_iff. simpl.
      intros [H | [H | [H | [(x & H & _) | [H | []]]]]]; congruence.
    + trace_calc; reflexivity.
    + intros _.
      exists ([EvGetConn (config.Clickhouse (taskCfg c)) (model.BatchIdx batch);
               EvBegin; EvPrepare (prepareSQL c)]
                ++ calls (exec_rows a (model.MsgRows batch))).
      now rewrite <- !app_assoc.
  - split; [trace_calc; lia |]. split; [trace_calc; lia |].
    split; [trace_calc; lia |]. split; [trace_calc; lia |]. split; [| split].
    + intros sql. rewrite exec_rows_calls. unfold reconnect.
      destruct (shouldReconnect (Wrap e0 "")); simpl;
        rewrite in_app_iff, in_map_iff; simpl;
        intros [H | [H | [H | [(x & H & _) | H]]]]; try congruence;
        intuition congruence.
    + trace_calc; reflexivity.
    + intros _.
      exists ([EvGetConn (config.Clickhouse (taskCfg c)) (model.BatchIdx batch);
               EvBegin; EvPrepare (prepareSQL c)]
                ++ calls (exec_rows a (model.MsgRows batch))
                ++ [EvCommit] ++ reconnect a c (Wrap e0 "")).
      now rewrite <- !app_assoc.
  - split; [trace_calc; lia |]. split; [trace_calc; lia |].
    split; [trace_calc; lia |]. split; [trace_calc; lia |]. split; [| split].
    + intros sql. rewrite exec_rows_calls. simpl. rewrite in_app_iff, in_map_iff. simpl.
      intros [H | [H | [H | [(x & H & _) | H]]]]; try congruence;
        intuition congruence.
    + trace_calc; reflexivity.
    + intros _.
      exists ([EvGetConn (config.Clickhouse (taskCfg c)) (model.BatchIdx batch);
               EvBegin; EvPrepare (prepareSQL c)]
                ++ calls (exec_rows a (model.MsgRows batch))
                ++ [EvCommit;
                    EvMetricAdd FlushMsgsTotal (config.Name (taskCfg c))
                                (model.RealSize batch)]).
      now rewrite <- !app_assoc.
Qed.

Lemma write_one_transaction_witness :
  write sample2.commit_broken (sample.sink 3) sample.two_rows
  = (Some (Wrap (New "write: connection refused") ""),
     [EvGetConn "ch1" 0; EvBegin; EvPrepare "INSERT INTO db.table (id) VALUES (?)";
      EvExec [model.VInt 1]; EvExec [model.VInt 2]; EvCommit; EvReConnect;
      EvMetricAdd ClickhouseReconnectTotal "task" 1; EvStmtClose]) /\
  count is_StmtClose
    [EvGetConn "ch1" 0; EvBegin; EvPrepare "INSERT INTO db.table (id) VALUES (?)";
     EvExec [model.VInt 1]; EvExec [model.VInt 2]; EvCommit; EvReConnect;
     EvMetricAdd ClickhouseReconnectTotal "task" 1; EvStmtClose]
  = count is_Prepare
      [EvGetConn "ch1" 0; EvBegin; EvPrepare "INSERT INTO db.table (id) VALUES (?)";
       EvExec [model.VInt 1]; EvExec [model.VInt 2]; EvCommit; EvReConnect;
       EvMetricAdd ClickhouseReconnectTotal "task" 1; EvStmtClose].
Proof.
  split; [reflexivity |].
  exact (proj1 (proj2 (proj2 (proj2 (proj2 (proj2
           (write_one_transaction sample2.commit_broken (sample.sink 3)
              sample.two_rows _ _ eq_refl))))))).
Defined.

Section MoreWriteFacts.

Variables (a : Attempt) (c : ClickHouse) (batch : model.Batch).

Lemma exec_fold_absent (absent : list model.MsgRow) (st : exec_state) :
  Forall (fun r => model.Row r = None) absent ->
  err (fold_left (exec_row a) absent st) = err st /\
  numErr (fold_left (exec_row a) absent st) = numErr st.
Proof.
  intros H. revert st; induction H as [|r absent Hr _ IH]; intros st; simpl.
  - now split.
  - destruct (IH (exec_row a st r)) as [-> ->].
    unfold exec_row. rewrite Hr. now split.
Qed.

Lemma exec_fold_numErr (rows : list model.MsgRow) (st : exec_state) :
  numErr (fold_left (exec_row a) rows st) = numErr st + failed_execs a (idx st) rows.
Proof.
  revert st; induction rows as [|r rows IH]; intros st;
    cbn [fold_left failed_execs]; [lia |].
  rewrite IH. unfold exec_row.
  destruct (model.Row r); [destruct (Exec a (idx st))|]; cbn [numErr idx]; lia.
Qed.

End MoreWriteFacts.

(** X2: when the transaction begins and the statement is prepared, [write]
    hands every present row of the batch to [stmt.Exec] exactly once, in the
    order of the batch, and no absent row: an error on a row neither stops
    nor repeats the rows after it, whatever [write] then returns. *)
Theorem write_executes_present_rows (a : Attempt) (c : ClickHouse)
    (batch : model.Batch) (r : option error) (tr : list event) :
  write a c batch = (r, tr) ->
  model.MsgRows batch <> [] ->
  Begin a = None ->
  Prepare a = None ->
  filter is_Exec tr = map EvExec (present_rows (model.MsgRows batch)).
Proof.
  write_cases a c batch; intros Hrows Hb Hp; try congruence.
  - apply length_eqb_0 in Hrows. congruence.
  - rewrite exec_rows_calls. simpl. rewrite filter_app, filter_Exec_calls. simpl.
    now rewrite app_nil_r.
  - rewrite exec_rows_calls. simpl.
    rewrite filter_app, filter_Exec_calls. simpl.
    rewrite filter_app, filter_Exec_reconnect. simpl. now rewrite app_nil_r.
  - rewrite exec_rows_calls. simpl. rewrite filter_app, filter_Exec_calls. simpl.
    now rewrite app_nil_r.
Qed.

Lemma write_executes_present_rows_witness :
  filter is_Exec (snd (write sample2.second_rejected (sample.sink 3) sample2.sparse))
  = [EvExec [model.VInt 7]].
Proof.
  apply (write_executes_present_rows sample2.second_rejected (sample.sink 3)
           sample2.sparse
           (fst (write sample2.second_rejected (sample.sink 3) sample2.sparse))).
  - reflexivity.
  - discriminate.
  - reflexivity.
  - reflexivity.
Defined.

(** X3: when [stmt.Exec] fails on the last present row of the batch, [write]
    returns that error wrapped, after having executed every present row: it
    does not commit, touches no counter and calls no reconnect, and closes
    the statement. *)
Theorem write_last_present_row_fails (a : Attempt) (c : ClickHouse)
    (batch : model.Batch) (rows absent : list model.MsgRow)
    (row : list model.value) (e : error) :
  model.MsgRows batch = rows ++ {| model.Row := Some row |} :: absent ->
  Forall (fun r => model.Row r = None) absent ->
  Begin a = None ->
  Prepare a = None ->
  Exec a (List.length rows) = Some e ->
  write a c batch
  = (Some (Wrap e ""),
     [EvGetConn (config.Clickhouse (taskCfg c)) (model.BatchIdx batch);
      EvBegin; EvPrepare (prepareSQL c)]
       ++ map EvExec (present_rows (model.MsgRows batch))
       ++ [EvStmtClose]).
Proof.
  intros Hrows Habsent Hb Hp He.
  assert (Herr : err (exec_rows a (model.MsgRows batch)) = Some (Wrap e "")).
  { rewrite Hrows. unfold exec_rows. rewrite fold_left_app. simpl.
    rewrite (proj1 (exec_fold_absent a absent _ Habsent)).
    unfold exec_row at 1. simpl. rewrite exec_fold_idx. simpl. now rewrite He. }
  unfold write. rewrite Hb, Hp, Herr, exec_rows_calls.
  rewrite Hrows at 1. rewrite length_app. simpl.
  replace (List.length rows + S (List.length absent) =? 0)%nat with false
    by (symmetry; apply Nat.eqb_neq; lia).
  reflexivity.
Qed.

Lemma write_last_present_row_fails_witness :
  write sample2.second_rejected (sample.sink 3) sample2.sparse
  = (Some (Wrap (New "clickhouse: type mismatch") ""),
     [EvGetConn "ch1" 4; EvBegin; EvPrepare "INSERT INTO db.table (id) VALUES (?)"]
       ++ map EvExec (present_rows (model.MsgRows sample2.sparse))
       ++ [EvStmtClose]).
Proof.
  apply (write_last_present_row_fails sample2.second_rejected (sample.sink 3)
           sample2.sparse [{| model.Row := None |}] [{| model.Row := None |}]
           [model.VInt 7] (New "clickhouse: type mismatch")).
  - reflexivity.
  - repeat constructor.
  - reflexivity.
  - reflexivity.
  - reflexivity.
Defined.

(** X4: when [tx.Prepare] fails, [write] returns that very error after the
    calls [GetConn], [Begin], [Prepare] and, for an error the classifier
    accepts, [ReConnect] and one increment of the reconnect counter: no row is
    executed, nothing is committed, and no statement is closed, there being
    none. *)
Theorem write_prepare_failure (a : Attempt) (c : ClickHouse) (batch : model.Batch)
    (e : error) :
  model.MsgRows batch <> [] ->
  Begin a = None ->
  Prepare a = Some e ->
  exists tr : list event,
    write a c batch = (Some e, tr) /\
    tr = [EvGetConn (config.Clickhouse (taskCfg c)) (model.BatchIdx batch);
          EvBegin; EvPrepare (prepareSQL c)]
           ++ (if shouldReconnect e
               then [EvReConnect;
                     EvMetricAdd ClickhouseReconnectTotal (config.Name (taskCfg c)) 1]
               else []) /\
    count is_Exec tr = O /\
    count is_Commit tr = O /\
    count is_StmtClose tr = O /\
    (forall m, m <> ClickhouseReconnectTotal -> count (is_metric m) tr = O).
Proof.
  intros Hrows Hb Hp. apply length_eqb_0 in Hrows.
  unfold write. rewrite Hrows, Hb, Hp. unfold reconnect.
  eexists. split; [reflexivity |]. split; [reflexivity |].
  destruct (shouldReconnect e); repeat split; try reflexivity;
    intros m Hm; destruct m; try reflexivity; congruence.
Qed.

Lemma write_prepare_failure_witness :
  exists tr : list event,
    write sample2.prepare_broken (sample.sink 3) sample.two_rows
    = (Some (New "driver: bad connection"), tr) /\
    count is_StmtClose tr = O.
Proof.
  destruct (write_prepare_failure sample2.prepare_broken (sample.sink 3)
              sample.two_rows (New "driver: bad connection"))
    as (tr & H1 & _ & _ & _ & H5 & _);
    [discriminate | reflexivity | reflexivity |].
  exists tr. split; [exact H1 | exact H5].
Defined.

Section WrapFacts.

Lemma substring_of_wrapped (sub s msg : string) :
  substring_of sub s -> substring_of sub (msg ++ ": " ++ s).
Proof.
  intros (pre & post & ->). exists (msg ++ ": " ++ pre)%string, post.
  now rewrite !append_assoc.
Qed.

End WrapFacts.

(** X5: wrapping an error with [errors.Wrap] keeps it a reconnect error
    when it was one, whatever the message, and keeps it a cancellation exactly
    when it was one; with the empty message, as [write] wraps, the classifier
    says of the wrapped error what it says of the error itself. *)
Theorem shouldReconnect_of_wrapped :
  (forall (e : error) (msg : string),
      shouldReconnect e = true -> shouldReconnect (Wrap e msg) = true) /\
  (forall e : error, shouldReconnect (Wrap e "") = shouldReconnect e) /\
  (forall (e : error) (msg : string), IsCanceled (Wrap e msg) = IsCanceled e).
Proof.
  split; [| split].
  - intros e msg H.
    assert (Hiff : forall err : error,
               shouldReconnect err = true <->
               substring_of "connection refused" (Error err) \/
               substring_of "bad connection" (Error err)).
    { intros err. unfold shouldReconnect. rewrite <- !Contains_spec.
      destruct (strings.Contains (Error err) "connection refused");
        destruct (strings.Contains (Error err) "bad connection"); simpl;
        intuition congruence. }
    apply Hiff. apply Hiff in H. cbn [Error].
    destruct H as [H | H]; [left | right]; now apply substring_of_wrapped.
  - exact shouldReconnect_Wrap.
  - reflexivity.
Qed.

(** X6: when every present row executes and [tx.Commit] fails, [write]
    returns the commit error wrapped with the empty message, after having
    executed every present row; it reconnects, once, exactly when the
    classifier accepts the commit error itself, does not touch the
    flushed-rows counter, and closes the statement. *)
Theorem write_commit_failure (a : Attempt) (c : ClickHouse) (batch : model.Batch)
    (e : error) :
  model.MsgRows batch <> [] ->
  Begin a = None ->
  Prepare a = None ->
  rows_execute a (model.MsgRows batch) ->
  Commit a = Some e ->
  write a c batch
  = (Some (Wrap e ""),
     [EvGetConn (config.Clickhouse (taskCfg c)) (model.BatchIdx batch);
      EvBegin; EvPrepare (prepareSQL c)]
       ++ map EvExec (present_rows (model.MsgRows batch))
       ++ [EvCommit]
       ++ (if shouldReconnect e
           then [EvReConnect;
                 EvMetricAdd ClickhouseReconnectTotal (config.Name (taskCfg c)) 1]
           else [])
       ++ [EvStmtClose]).
Proof.
  intros Hrows Hb Hp Hx Hc. apply length_eqb_0 in Hrows.
  unfold write. rewrite Hrows, Hb, Hp, (exec_rows_ok a _ Hx), Hc, exec_rows_calls.
  unfold reconnect. rewrite shouldReconnect_Wrap. reflexivity.
Qed.

Lemma write_commit_failure_witness :
  write sample2.commit_broken (sample.sink 3) sample.two_rows
  = (Some (Wrap (New "write: connection refused") ""),
     [EvGetConn "ch1" 0; EvBegin; EvPrepare "INSERT INTO db.table (id) VALUES (?)"]
       ++ map EvExec (present_rows (model.MsgRows sample.two_rows))
       ++ [EvCommit]
       ++ (if shouldReconnect (New "write: connection refused")
           then [EvReConnect; EvMetricAdd ClickhouseReconnectTotal "task" 1]
           else [])
       ++ [EvStmtClose]).
Proof.
  apply (write_commit_failure sample2.commit_broken (sample.sink 3) sample.two_rows
           (New "write: connection refused")).
  - discriminate.
  - reflexivity.
  - reflexivity.
  - intros i row _. reflexivity.
  - reflexivity.
Defined.

(** X7: [write] adds to the flushed-rows counter only when it returns nil on
    a batch that has rows: then it has committed once and added the batch's
    [RealSize] once; when it returns an error the counter is untouched; on a
    batch without rows it returns nil and makes no call, so the counter is
    untouched there too; and no counter other than the flushed-rows and the
    reconnect counter is ever touched. *)
Theorem write_counts_flushed_rows (a : Attempt) (c : ClickHouse) (batch : model.Batch)
    (r : option error) (tr : list event) :
  write a c batch = (r, tr) ->
  (r = None -> model.MsgRows batch <> [] ->
   count is_Commit tr = 1%nat /\
   count (is_metric FlushMsgsTotal) tr = 1%nat /\
   metric_total FlushMsgsTotal tr = model.RealSize batch) /\
  (r <> None ->
   count (is_metric FlushMsgsTotal) tr = O /\ metric_total FlushMsgsTotal tr = 0) /\
  (forall m, m <> FlushMsgsTotal -> m <> ClickhouseReconnectTotal ->
             count (is_metric m) tr = O) /\
  (model.MsgRows batch = [] ->
   r = None /\ tr = [] /\
   count (is_metric FlushMsgsTotal) tr = O /\ metric_total FlushMsgsTotal tr = 0) /\
  (count (is_metric FlushMsgsTotal) tr
   = once (match r with None => true | Some _ => false end
           && negb (List.length (model.MsgRows batch) =? 0)%nat)).
Proof.
  assert (Hne : (List.length (model.MsgRows batch) =? 0)%nat = false ->
                model.MsgRows batch = [] -> False).
  { intros Hlen Hrows. rewrite Hrows in Hlen. discriminate. }
  write_cases a c batch.
  - split; [| split; [| split; [| split]]].
    + intros _ Hrows. apply length_eqb_0 in Hrows. congruence.
    + congruence.
    + reflexivity.
    + intros _. repeat split; reflexivity.
    + reflexivity.
  - split; [discriminate |]. split; [intros _; trace_calc; now split |].
    split; [intros m H1 H2; destruct m; try congruence; trace_calc; reflexivity |].
    split; [intros Hrows; destruct (Hne eq_refl Hrows) | trace_calc; reflexivity].
  - split; [discriminate |]. split; [intros _; trace_calc; now split |].
    split; [intros m H1 H2; destruct m; try congruence; trace_calc; reflexivity |].
    split; [intros Hrows; destruct (Hne eq_refl Hrows) | trace_calc; reflexivity].
  - split; [discriminate |]. split; [intros _; trace_calc; now split |].
    split; [intros m H1 H2; destruct m; try congruence; trace_calc; reflexivity |].
    split; [intros Hrows; destruct (Hne eq_refl Hrows) | trace_calc; reflexivity].
  - split; [discriminate |]. split; [intros _; trace_calc; now split |].
    split; [intros m H1 H2; destruct m; try congruence; trace_calc; reflexivity |].
    split; [intros Hrows; destruct (Hne eq_refl Hrows) | trace_calc; reflexivity].
  - split; [intros _ _; trace_calc; repeat split; lia |].
    split; [congruence |].
    split; [intros m H1 H2; destruct m; try congruence; trace_calc; reflexivity |].
    split; [intros Hrows; destruct (Hne eq_refl Hrows) | trace_calc; reflexivity].
Qed.

Lemma write_counts_flushed_rows_witness :
  write sample.healthy (sample.sink 3) sample.two_rows
  = (None,
     [EvGetConn "ch1" 0; EvBegin; EvPrepare "INSERT INTO db.table (id) VALUES (?)";
      EvExec [model.VInt 1]; EvExec [model.VInt 2];
      EvCommit; EvMetricAdd FlushMsgsTotal "task" 2; EvStmtClose]) /\
  metric_total FlushMsgsTotal
    [EvGetConn "ch1" 0; EvBegin; EvPrepare "INSERT INTO db.table (id) VALUES (?)";
     EvExec [model.VInt 1]; EvExec [model.VInt 2];
     EvCommit; EvMetricAdd FlushMsgsTotal "task" 2; EvStmtClose] = 2.
Proof.
  split; [reflexivity |].
  destruct (write_counts_flushed_rows sample.healthy (sample.sink 3)
              sample.two_rows _ _ eq_refl) as [H _].
  destruct H as (_ & _ & H); [reflexivity | discriminate |]. exact H.
Defined.

(** X8: the count [numErr] that [write] logs after the loop over the rows is
    the number of present rows on which [stmt.Exec] failed; the error it
    keeps is nil whenever that number is zero. *)
Theorem exec_rows_numErr (a : Attempt) (rows : list model.MsgRow) :
  numErr (exec_rows a rows) = failed_execs a 0 rows /\
  0 <= numErr (exec_rows a rows) <= Z.of_nat (List.length (present_rows rows)) /\
  (numErr (exec_rows a rows) = 0 -> err (exec_rows a rows) = None).
Proof.
  assert (Hn : numErr (exec_rows a rows) = failed_execs a 0 rows).
  { unfold exec_rows. now rewrite exec_fold_numErr. }
  assert (Hbound : forall i l, 0 <= failed_execs a i l
                               <= Z.of_nat (List.length (present_rows l))).
  { intros i l; revert i; induction l as [|r l IH]; intros i;
      cbn [failed_execs present_rows]; [simpl; lia |].
    specialize (IH (S i)).
    destruct (model.Row r); [destruct (Exec a i)|]; cbn [List.length]; lia. }
  split; [exact Hn |]. split; [rewrite Hn; apply Hbound |].
  rewrite Hn. clear Hn. unfold exec_rows.
  assert (Hgen : forall l st,
             err st = None -> failed_execs a (idx st) l = 0 ->
             err (fold_left (exec_row a) l st) = None).
  { induction l as [|r l IH]; intros st Hst Hz; [exact Hst |].
    cbn [fold_left failed_execs] in *. unfold exec_row.
    pose proof (Hbound (S (idx st)) l) as Hb.
    destruct (model.Row r); [destruct (Exec a (idx st)) |];
      try lia; apply IH; simpl; auto. }
  intros Hz. now apply Hgen.
Qed.

(** ** The retry loop, continued *)
Section MoreLoopFacts.

Variables (c : ClickHouse) (batch : model.Batch).

(** What a call of [write] leaves of sleeps, backlog, reconnects and
    connections. *)
Lemma write_more_frame (a : Attempt) (r : option error) (tr : list event) :
  write a c batch = (r, tr) ->
  count is_Sleep tr = O /\
  count (is_metric FlushBatchBacklog) tr = O /\
  metric_total FlushBatchBacklog tr = 0 /\
  metric_total ClickhouseReconnectTotal tr = Z.of_nat (count is_ReConnect tr) /\
  count (is_metric ClickhouseReconnectTotal) tr = count is_ReConnect tr /\
  (count is_ReConnect tr <= count is_GetConn tr)%nat /\
  count is_GetConn tr
  = (if (List.length (model.MsgRows batch) =? 0)%nat then O else 1%nat).
Proof.
  write_cases a c batch; trace_calc; repeat split; lia.
Qed.

Lemma turn_frame (a : Attempt) (times times' : Z) (b : branch) (ev : list event) :
  loopWrite_turn a c batch times = (b, times', ev) ->
  count is_Callback ev = once (is_branch ReturnAfterCallback b) /\
  (b = ReturnAfterCallback -> In (EvCallback batch) ev) /\
  count (is_metric FlushMsgsErrorTotal) ev = once (is_branch ReturnLoss b) /\
  metric_total FlushMsgsErrorTotal ev
  = (if is_branch ReturnLoss b then model.RealSize batch else 0) /\
  count is_Sleep ev = once (is_branch SleepAndLoop b) /\
  count (is_metric FlushBatchBacklog) ev = O /\
  metric_total FlushBatchBacklog ev = 0 /\
  metric_total ClickhouseReconnectTotal ev = Z.of_nat (count is_ReConnect ev) /\
  count (is_metric ClickhouseReconnectTotal) ev = count is_ReConnect ev /\
  (count is_ReConnect ev <= count is_GetConn ev)%nat /\
  count is_GetConn ev
  = (if (List.length (model.MsgRows batch) =? 0)%nat then O else 1%nat).
Proof.
  unfold loopWrite_turn.
  destruct (write a c batch) as [[e|] tr] eqn:Hw;
    destruct (write_frame _ _ _ _ _ Hw) as (F1 & F2 & F3);
    destruct (write_more_frame _ _ _ Hw) as (G1 & G2 & G3 & G4 & G5 & G6 & G7).
  - destruct (IsCanceled e).
    + intros [= <- <- <-]. simpl. repeat split; try assumption; try discriminate.
    + destruct (int_wrap (times - 1) >? 0); intros [= <- <- <-];
        autorewrite with trace; simpl; rewrite ?F1, ?F2, ?F3, ?G1, ?G2, ?G3, ?G5;
        repeat split; try discriminate; try lia.
  - intros [= <- <- <-]. autorewrite with trace. simpl.
    rewrite ?F1, ?F2, ?F3, ?G1, ?G2, ?G3, ?G5.
    repeat split; try lia.
    intros _. apply in_or_app. right. now left.
Qed.

End MoreLoopFacts.

Section MoreLoopRuns.

Variables (script : nat -> Attempt) (c : ClickHouse) (batch : model.Batch).

(** What a run of the loop leaves in its trace, by the way it ended. *)
Lemma loop_frame (fuel k : nat) (times times' : Z) (r : option branch)
    (ev : list event) :
  loopWrite_for fuel script k c batch times = (r, times', ev) ->
  r <> Some SleepAndLoop /\
  count is_Callback ev = once (ended ReturnAfterCallback r) /\
  (r = Some ReturnAfterCallback -> In (EvCallback batch) ev) /\
  count (is_metric FlushMsgsErrorTotal) ev = once (ended ReturnLoss r) /\
  metric_total FlushMsgsErrorTotal ev
  = (if ended ReturnLoss r then model.RealSize batch else 0) /\
  count (is_metric FlushBatchBacklog) ev = O /\
  metric_total FlushBatchBacklog ev = 0 /\
  metric_total ClickhouseReconnectTotal ev = Z.of_nat (count is_ReConnect ev) /\
  count (is_metric ClickhouseReconnectTotal) ev = count is_ReConnect ev /\
  (count is_ReConnect ev <= count is_GetConn ev)%nat /\
  count is_GetConn ev
  = (if (List.length (model.MsgRows batch) =? 0)%nat then O
     else (count is_Sleep ev + once (returned r))%nat).
Proof.
  revert k times times' r ev; induction fuel as [|fuel IH];
    intros k times times' r ev; simpl.
  - intros [= <- <- <-]. simpl.
    destruct (List.length (model.MsgRows batch) =? 0)%nat;
      repeat split; try reflexivity; try discriminate; lia.
  - destruct (loopWrite_turn (script k) c batch times) as [[b t1] ev1] eqn:Ht.
    destruct (turn_frame _ _ _ _ _ _ _ Ht)
      as (T1 & T2 & T3 & T4 & T5 & T6 & T7 & T8 & T9 & T10 & T11).
    destruct b;
      try (intros [= <- <- <-]; simpl in *;
           destruct (List.length (model.MsgRows batch) =? 0)%nat;
           repeat split; try assumption; try discriminate; try lia;
           now auto).
    destruct (loopWrite_for fuel script (S k) c batch t1) as [[r2 t2] ev2] eqn:Hl.
    destruct (IH _ _ _ _ _ Hl)
      as (L0 & L1 & L2 & L3 & L4 & L5 & L6 & L7 & L8 & L9 & L10).
    intros [= <- <- <-]. simpl in *. autorewrite with trace.
    rewrite T1, T3, T4, T6, T7, T8, T9, L1, L3, L4, L5, L6, L7, L8.
    destruct (List.length (model.MsgRows batch) =? 0)%nat;
      repeat split; try assumption; try lia;
      intros H; apply in_or_app; right; now apply L2.
Qed.

End MoreLoopRuns.

(** X9: [Send] raises the backlog gauge once, before anything else, and
    lowers it once, as its last call, when the loop returns, whichever way it
    returns; between the two nothing touches the gauge, so a run that has
    returned leaves it where it was and a run still going holds it one up. *)
Theorem Send_balances_backlog (fuel : nat) (script : nat -> Attempt)
    (c : ClickHouse) (batch : model.Batch) :
  let '(r, _, tr) := Send fuel script c batch in
  hd_error tr = Some (EvMetricAdd FlushBatchBacklog (config.Name (taskCfg c)) 1) /\
  count (is_metric FlushBatchBacklog) tr = (1 + once (returned r))%nat /\
  metric_total FlushBatchBacklog tr = (if returned r then 0 else 1) /\
  (returned r = true ->
   exists tr',
     tr = tr' ++ [EvMetricAdd FlushBatchBacklog (config.Name (taskCfg c)) (-1)]).
Proof.
  unfold Send, loopWrite.
  destruct (loopWrite_for fuel script 0 c batch (config.RetryTimes (chCfg c)))
    as [[r t] ev] eqn:Hl.
  destruct (loop_frame _ _ _ _ _ _ _ _ _ Hl) as (_ & _ & _ & _ & _ & L5 & L6 & _).
  destruct r as [b|]; simpl.
  - split; [reflexivity |]. autorewrite with trace. simpl. rewrite L5, L6.
    repeat split; try lia.
    intros _.
    exists (EvMetricAdd FlushBatchBacklog (config.Name (taskCfg c)) 1 :: ev).
    reflexivity.
  - split; [reflexivity |]. autorewrite with trace. simpl. rewrite L5, L6.
    repeat split; try lia; discriminate.
Qed.


(** X11: in a run of [Send] the reconnect counter is incremented exactly as
    often as [conn.ReConnect] is called, by one each time, and there is at
    most one reconnect for each connection taken. *)
Theorem Send_counts_reconnects (fuel : nat) (script : nat -> Attempt)
    (c : ClickHouse) (batch : model.Batch) :
  let '(_, _, tr) := Send fuel script c batch in
  metric_total ClickhouseReconnectTotal tr = Z.of_nat (count is_ReConnect tr) /\
  count (is_metric ClickhouseReconnectTotal) tr = count is_ReConnect tr /\
  (count is_ReConnect tr <= count is_GetConn tr)%nat.
Proof.
  unfold Send, loopWrite.
  destruct (loopWrite_for fuel script 0 c batch (config.RetryTimes (chCfg c)))
    as [[r t] ev] eqn:Hl.
  destruct (loop_frame _ _ _ _ _ _ _ _ _ Hl)
    as (_ & _ & _ & _ & _ & _ & _ & L7 & L8 & L9 & _).
  destruct r as [b|]; repeat (progress (simpl; autorewrite with trace));
    rewrite ?L7, ?L8; repeat split; lia.
Qed.

Section SleepFacts.

Variables (script : nat -> Attempt) (c : ClickHouse) (batch : model.Batch).

Lemma count_zero_not_In (kind : event -> bool) (e : event) (t : list event) :
  count kind t = O -> In e t -> kind e = false.
Proof.
  induction t as [|x t IH]; [intros _ [] |].
  rewrite count_cons. intros Hc [<- | Hin].
  - destruct (kind x); [discriminate | reflexivity].
  - apply IH; [|exact Hin]. destruct (kind x); simpl in Hc; lia.
Qed.

Lemma turn_sleeps_10 (a : Attempt) (times times' : Z) (b : branch)
    (ev : list event) (s : Z) :
  loopWrite_turn a c batch times = (b, times', ev) ->
  In (EvSleep s) ev -> s = 10.
Proof.
  unfold loopWrite_turn.
  destruct (write a c batch) as [[e|] tr] eqn:Hw;
    destruct (write_more_frame _ _ _ _ _ Hw) as (G1 & _);
    pose proof (count_zero_not_In is_Sleep (EvSleep s) tr G1) as Hno.
  - destruct (IsCanceled e).
    + intros [= <- <- <-] Hin. now apply Hno in Hin.
    + destruct (int_wrap (times - 1) >? 0); intros [= <- <- <-] Hin;
        apply in_app_or in Hin as [Hin | [Hin | []]];
        try (now apply Hno in Hin); congruence.
  - intros [= <- <- <-] Hin.
    apply in_app_or in Hin as [Hin | [Hin | []]];
      [now apply Hno in Hin | discriminate].
Qed.

Lemma loop_sleeps_10 (fuel k : nat) (times times' : Z) (r : option branch)
    (ev : list event) (s : Z) :
  loopWrite_for fuel script k c batch times = (r, times', ev) ->
  In (EvSleep s) ev -> s = 10.
Proof.
  revert k times times' r ev; induction fuel as [|fuel IH];
    intros k times times' r ev; simpl.
  - intros [= <- <- <-] [].
  - destruct (loopWrite_turn (script k) c batch times) as [[b t1] ev1] eqn:Ht.
    pose proof (turn_sleeps_10 _ _ _ _ _ s Ht) as Hturn.
    destruct b; try (intros [= <- <- <-]; exact Hturn).
    destruct (loopWrite_for fuel script (S k) c batch t1) as [[r2 t2] ev2] eqn:Hl.
    intros [= <- <- <-] Hin. apply in_app_or in Hin as [Hin | Hin];
      [now apply Hturn | now apply (IH _ _ _ _ _ Hl)].
Qed.

(** With a budget of two or more that fits an [int], a turn never goes back
    to the top of the loop. *)
Lemma turn_returns (a : Attempt) (times times' : Z) (b : branch) (ev : list event) :
  2 <= times < 2 ^ 63 ->
  loopWrite_turn a c batch times = (b, times', ev) ->
  b <> SleepAndLoop /\ times - 1 <= times' <= times.
Proof.
  intros Ht. unfold loopWrite_turn.
  destruct (write a c batch) as [[e|] tr].
  - destruct (IsCanceled e).
    + intros [= <- <- <-]. split; [discriminate | lia].
    + rewrite int_wrap_small by lia.
      destruct (times - 1 >? 0) eqn:E; [|lia].
      intros [= <- <- <-]. split; [discriminate | lia].
  - intros [= <- <- <-]. split; [discriminate | lia].
Qed.

End SleepFacts.

(** X12: on a batch that has rows, a run of [loopWrite] sleeps exactly once
    between two attempts and not after the last one: the connection is taken
    once more than the loop has slept when the run has returned, and as often
    when it is still going; and every sleep is of 10 seconds. *)
Theorem loopWrite_sleeps_between_attempts (fuel : nat) (script : nat -> Attempt)
    (c : ClickHouse) (batch : model.Batch) :
  model.MsgRows batch <> [] ->
  let '(r, _, tr) := loopWrite fuel script c batch in
  count is_GetConn tr = (count is_Sleep tr + once (returned r))%nat /\
  (forall s, In (EvSleep s) tr -> s = 10).
Proof.
  intros Hrows. apply length_eqb_0 in Hrows. unfold loopWrite.
  destruct (loopWrite_for fuel script 0 c batch (config.RetryTimes (chCfg c)))
    as [[r t] ev] eqn:Hl.
  destruct (loop_frame _ _ _ _ _ _ _ _ _ Hl)
    as (_ & _ & _ & _ & _ & _ & _ & _ & _ & _ & L10).
  rewrite Hrows in L10.
  pose proof (fun s => loop_sleeps_10 _ _ _ _ _ _ _ _ _ s Hl) as Hs.
  destruct r as [b|].
  - split.
    + autorewrite with trace. cbn [is_GetConn is_Sleep once returned] in *. lia.
    + intros s Hin. apply in_app_or in Hin as [Hin | [Hin | []]];
        [now apply Hs | discriminate].
  - split; [exact L10 | exact Hs].
Qed.

Lemma loopWrite_sleeps_between_attempts_witness :
  let '(r, _, tr) := loopWrite 3 sample.recovers (sample.sink 1) sample.two_rows in
  count is_GetConn tr = (count is_Sleep tr + once (returned r))%nat /\
  (forall s, In (EvSleep s) tr -> s = 10).
Proof.
  apply (loopWrite_sleeps_between_attempts 3 sample.recovers (sample.sink 1)
           sample.two_rows).
  discriminate.
Defined.

(** X13: with a retry budget of two or more, [loopWrite] returns after its
    first attempt on every answer of the connection: it never sleeps and never
    calls [write] a second time, and [times] ends at the budget or one
    below. *)
Theorem loopWrite_single_attempt (fuel : nat) (script : nat -> Attempt)
    (c : ClickHouse) (batch : model.Batch) :
  2 <= config.RetryTimes (chCfg c) < 2 ^ 63 ->
  exists (b : branch) (times : Z) (tr : list event),
    loopWrite (S fuel) script c batch = (Some b, times, tr) /\
    b <> SleepAndLoop /\
    config.RetryTimes (chCfg c) - 1 <= times <= config.RetryTimes (chCfg c) /\
    count is_Sleep tr = O /\
    (count is_GetConn tr <= 1)%nat.
Proof.
  intros Hn. unfold loopWrite. simpl.
  destruct (loopWrite_turn (script O) c batch (config.RetryTimes (chCfg c)))
    as [[b t1] ev1] eqn:Ht.
  destruct (turn_returns _ _ _ _ _ _ _ Hn Ht) as [Hb Hrange].
  destruct (turn_frame _ _ _ _ _ _ _ Ht)
    as (_ & _ & _ & _ & T5 & _ & _ & _ & _ & _ & T11).
  assert (Hg : (count is_GetConn ev1 <= 1)%nat)
    by (rewrite T11; destruct (List.length (model.MsgRows batch) =? 0)%nat; lia).
  destruct b; try congruence;
    (eexists; eexists; eexists; split; [reflexivity |];
     split; [discriminate |]; split; [exact Hrange |];
     autorewrite with trace; simpl; rewrite T5; simpl; split; lia).
Qed.

Lemma loopWrite_single_attempt_witness :
  exists (b : branch) (times : Z) (tr : list event),
    loopWrite 5 sample.recovers (sample.sink 3) sample.two_rows = (Some b, times, tr) /\
    b <> SleepAndLoop /\
    3 - 1 <= times <= 3 /\
    count is_Sleep tr = O /\
    (count is_GetConn tr <= 1)%nat.
Proof.
  apply (loopWrite_single_attempt 4 sample.recovers (sample.sink 3) sample.two_rows).
  simpl. lia.
Defined.

(** X14: on a batch without rows [Send] takes no connection: it raises the
    backlog gauge, calls the callback with the batch and lowers the gauge,
    and leaves the retry budget as it was. *)
Theorem Send_empty_batch (fuel : nat) (script : nat -> Attempt)
    (c : ClickHouse) (batch : model.Batch) :
  model.MsgRows batch = [] ->
  Send (S fuel) script c batch
  = (Some ReturnAfterCallback, config.RetryTimes (chCfg c),
     [EvMetricAdd FlushBatchBacklog (config.Name (taskCfg c)) 1;
      EvCallback batch;
      EvMetricAdd FlushBatchBacklog (config.Name (taskCfg c)) (-1)]).
Proof.
  intros Hrows. unfold Send. now rewrite (loopWrite_empty_batch _ _ _ _ Hrows).
Qed.

Lemma Send_empty_batch_witness :
  Send 1 (fun _ => sample.broken) (sample.sink 3) sample.empty_batch
  = (Some ReturnAfterCallback, 3,
     [EvMetricAdd FlushBatchBacklog "task" 1;
      EvCallback sample.empty_batch;
      EvMetricAdd FlushBatchBacklog "task" (-1)]).
Proof.
  apply (Send_empty_batch 0 (fun _ => sample.broken) (sample.sink 3) sample.empty_batch).
  reflexivity.
Defined.

(** ** The schema resolver, continued *)

(** X15: with a static schema [initSchema] cannot fail and asks the catalog
    nothing: whatever the connection would answer, the resolved columns are
    the configured ones, in the configured order, each copied as it is; the
    exclude list is not applied and a wrapped type is not unwrapped. *)
Theorem initSchema_static (GetSourceName : string -> string)
    (Query : string -> error + list catalog_row) (c : ClickHouse) :
  config.AutoSchema (taskCfg c) = false ->
  exists c' : ClickHouse,
    initSchema GetSourceName Query c = (None, c') /\
    Dims c' = map configured (config.Dims (taskCfg c)) /\
    dms c' = map config.dim.Name (config.Dims (taskCfg c)) /\
    (forall GetSourceName' Query', initSchema GetSourceName' Query' c = (None, c')).
Proof.
  intros Hauto. unfold initSchema. rewrite Hauto.
  eexists. split; [reflexivity |]. cbn [Dims dms].
  rewrite !fold_left_snoc. cbn [app]. rewrite map_map.
  repeat split; reflexivity.
Qed.

Lemma initSchema_static_witness :
  exists c' : ClickHouse,
    initSchema sample.GetSourceName sample2.no_catalog sample2.static_sink = (None, c') /\
    Dims c'
    = [{| model.Name := "name"; model.Type_ := "String"; model.SourceName := "n" |};
       {| model.Name := "tags"; model.Type_ := "LowCardinality(String)";
          model.SourceName := "t" |}].
Proof.
  destruct (initSchema_static sample.GetSourceName sample2.no_catalog
              sample2.static_sink eq_refl) as (c' & H1 & H2 & _).
  exists c'. split; [exact H1 | exact H2].
Defined.

(** X16: in auto-discovery mode, when the catalog query fails, [initSchema]
    and [Init] return the error of the query and leave the sink as it was: no
    column is resolved and no statement generated. *)
Theorem Init_query_failure (GetSourceName : string -> string)
    (Query : string -> error + list catalog_row) (c : ClickHouse) (e : error) :
  config.AutoSchema (taskCfg c) = true ->
  Query (selectSQLTemplate (config.DB (chCfg c)) (config.TableName (taskCfg c))) = inl e ->
  initSchema GetSourceName Query c = (Some e, c) /\
  Init GetSourceName Query c = (Some e, c).
Proof.
  intros Hauto Hq. unfold Init, initSchema. now rewrite Hauto, Hq.
Qed.

Lemma Init_query_failure_witness :
  Init sample.GetSourceName sample2.no_catalog (sample.sink 3)
  = (Some (New "dial tcp: connection refused"), sample.sink 3).
Proof.
  apply (Init_query_failure sample.GetSourceName sample2.no_catalog (sample.sink 3)
           (New "dial tcp: connection refused")); reflexivity.
Defined.

(** X17: what [initSchema] resolves does not depend on the columns, the
    statement and the names the sink held before: they are replaced, not
    added to.  So running it again on its own result, against the same
    catalog, changes nothing. *)
Theorem initSchema_replaces (GetSourceName : string -> string)
    (Query : string -> error + list catalog_row) (c c' : ClickHouse) :
  initSchema GetSourceName Query c = (None, c') ->
  (forall (old_dims : list model.ColumnWithType) (old_sql : string)
          (old_dms : list string),
      initSchema GetSourceName Query
        {| Dims := old_dims; taskCfg := taskCfg c; chCfg := chCfg c;
           prepareSQL := old_sql; dms := old_dms |}
      = (None, c')) /\
  initSchema GetSourceName Query c' = (None, c').
Proof.
  intros H.
  assert (Hany : forall old_dims old_sql old_dms,
             initSchema GetSourceName Query
               {| Dims := old_dims; taskCfg := taskCfg c; chCfg := chCfg c;
                  prepareSQL := old_sql; dms := old_dms |}
             = (None, c')).
  { intros old_dims old_sql old_dms. revert H. unfold initSchema.
    cbn [taskCfg chCfg].
    change (scan_row GetSourceName
              {| Dims := old_dims; taskCfg := taskCfg c; chCfg := chCfg c;
                 prepareSQL := old_sql; dms := old_dms |})
      with (scan_row GetSourceName c).
    destruct (config.AutoSchema (taskCfg c));
      [destruct (Query _) as [e | rs]; [discriminate |] |]; exact (fun H => H). }
  split; [exact Hany |].
  destruct (initSchema_resolved GetSourceName Query c c' H) as (Ht & Hc & _).
  destruct c' as [d t ch p m]. simpl in Ht, Hc. subst t ch. apply Hany.
Qed.

Lemma initSchema_replaces_witness :
  initSchema sample.GetSourceName sample.Query
    {| Dims := [{| model.Name := "id"; model.Type_ := "Int32"; model.SourceName := "id" |};
                {| model.Name := "tags"; model.Type_ := "String"; model.SourceName := "tags" |}];
       taskCfg := sample.task;
       chCfg := {| config.DB := "db"; config.RetryTimes := 3 |};
       prepareSQL := "INSERT INTO db.table (id,tags) VALUES (?,?)";
       dms := ["id"; "tags"] |}
  = (None,
     {| Dims := [{| model.Name := "id"; model.Type_ := "Int32"; model.SourceName := "id" |};
                 {| model.Name := "tags"; model.Type_ := "String"; model.SourceName := "tags" |}];
        taskCfg := sample.task;
        chCfg := {| config.DB := "db"; config.RetryTimes := 3 |};
        prepareSQL := "INSERT INTO db.table (id,tags) VALUES (?,?)";
        dms := ["id"; "tags"] |}).
Proof.
  apply (initSchema_replaces sample.GetSourceName sample.Query (sample.sink 3)).
  reflexivity.
Defined.

(** X18: a type that holds the wrapper inside: [pre] ends where
    [LowCardinality(] first occurs and no [)] follows the one that ends
    [inner].  The opening and that closing parenthesis are removed and the
    rest of the type is kept, as [Array(LowCardinality(String))] becomes
    [Array(String)]. *)
Theorem lowCardinality_removed_inside_type (pre inner post : string) :
  strings.Index (pre ++ "LowCardinality(") "LowCardinality("
  = Z.of_nat (String.length pre) ->
  inner <> EmptyString ->
  single_line inner ->
  count_byte ")" post = O ->
  regexp.lowCardinalityRegexp_ReplaceAllString
    (pre ++ "LowCardinality(" ++ inner ++ String ")" post)
  = (pre ++ inner ++ post)%string.
Proof. exact (ReplaceAllString_first_wrapper pre inner post). Qed.

Lemma lowCardinality_removed_inside_type_witness :
  regexp.lowCardinalityRegexp_ReplaceAllString "Array(LowCardinality(String)) CODEC"
  = "Array(String) CODEC".
Proof.
  apply (lowCardinality_removed_inside_type "Array(" "String)" " CODEC").
  - reflexivity.
  - discriminate.
  - simpl. repeat split; discriminate.
  - reflexivity.
Defined.

(** X19: the statement that [write] prepares on a sink that [initSchema]
    has set up is the insert statement over the resolved columns, and it is
    prepared right after the transaction has begun. *)
Theorem write_prepares_resolved_statement (GetSourceName : string -> string)
    (Query : string -> error + list catalog_row) (c c' : ClickHouse)
    (a : Attempt) (batch : model.Batch) :
  initSchema GetSourceName Query c = (None, c') ->
  model.MsgRows batch <> [] ->
  Begin a = None ->
  exists rest : list event,
    snd (write a c' batch)
    = [EvGetConn (config.Clickhouse (taskCfg c)) (model.BatchIdx batch);
       EvBegin;
       EvPrepare (spec_insert_statement (config.DB (chCfg c))
                    (config.TableName (taskCfg c)) (map model.Name (Dims c')))]
        ++ rest.
Proof.
  intros Hinit Hrows Hb. apply length_eqb_0 in Hrows.
  destruct (initSchema_resolved GetSourceName Query c c' Hinit) as (Ht & Hc & _ & Hsql).
  assert (Hstmt : prepareSQL c'
                  = spec_insert_statement (config.DB (chCfg c))
                      (config.TableName (taskCfg c)) (map model.Name (Dims c'))).
  { rewrite Hsql. unfold spec_insert_statement.
    now rewrite map_placeholder, length_map. }
  unfold write. rewrite Hrows, Hb, Hstmt, Ht.
  destruct (Prepare a); [eexists; simpl; reflexivity |].
  destruct (err (exec_rows a (model.MsgRows batch)));
    [eexists; simpl; reflexivity |].
  destruct (Commit a); eexists; simpl; reflexivity.
Qed.

Lemma write_prepares_resolved_statement_witness :
  exists rest : list event,
    snd (write sample.healthy
           {| Dims := [{| model.Name := "id"; model.Type_ := "Int32"; model.SourceName := "id" |};
                       {| model.Name := "tags"; model.Type_ := "String"; model.SourceName := "tags" |}];
              taskCfg := sample.task;
              chCfg := {| config.DB := "db"; config.RetryTimes := 3 |};
              prepareSQL := "INSERT INTO db.table (id,tags) VALUES (?,?)";
              dms := ["id"; "tags"] |}
           sample.two_rows)
    = [EvGetConn "ch1" 0; EvBegin;
       EvPrepare (spec_insert_statement "db" "table" ["id"; "tags"])] ++ rest.
Proof.
  apply (write_prepares_resolved_statement sample.GetSourceName sample.Query
           (sample.sink 3)); [reflexivity | discriminate | reflexivity].
Defined.

Section RegexpLengths.

Lemma last_close_bound (u : string) (i j : nat) :
  regexp.last_close i u = Some j -> (i <= j < i + String.length u)%nat.
Proof.
  revert i; induction u as [|ch u IH]; intros i;
    cbn [regexp.last_close String.length]; [discriminate |].
  destruct (regexp.last_close (S i) u) as [j'|] eqn:E.
  - intros [= <-]. specialize (IH _ E). lia.
  - destruct (Ascii.eqb ch ")" && (1 <=? i)%nat); [|discriminate].
    intros [= <-]. lia.
Qed.

Lemma dot_run_length (t : string) :
  (String.length (regexp.dot_run t) <= String.length t)%nat.
Proof.
  induction t as [|ch t IH]; simpl; [lia |].
  destruct (Ascii.eqb ch "010"); simpl; lia.
Qed.

Lemma substring_length (j : nat) (t : string) :
  (j <= String.length t)%nat -> String.length (substring 0 j t) = j.
Proof.
  revert t; induction j as [|j IH]; intros t Hj.
  - destruct t; reflexivity.
  - destruct t as [|ch t]; simpl in *; [lia |]. rewrite IH; lia.
Qed.

(** A match at the start of [s] takes [LowCardinality(], a submatch of
    [j] bytes and a closing parenthesis. *)
Lemma match_here_Some (s group1 : string) (len : nat) :
  regexp.match_here s = Some (group1, len) ->
  exists (t : string) (j : nat),
    s = ("LowCardinality(" ++ t)%string /\
    String.length group1 = j /\ len = (15 + j + 1)%nat /\
    (j < String.length t)%nat.
Proof.
  unfold regexp.match_here.
  destruct (regexp.CutPrefix s "LowCardinality(") as [t|] eqn:Hc; [|discriminate].
  destruct (regexp.last_close 0 (regexp.dot_run t)) as [j|] eqn:Hj; [|discriminate].
  intros [= <- <-]. apply CutPrefix_Some in Hc. apply last_close_bound in Hj.
  pose proof (dot_run_length t).
  exists t, j. split; [exact Hc |]. split; [apply substring_length; lia |].
  split; [reflexivity | lia].
Qed.

(** Every match removes 16 bytes, and nothing else changes the length. *)
Lemma replace_from_length (s : string) (skip : nat) :
  exists n : nat,
    (String.length (regexp.replace_from skip s) + Nat.min skip (String.length s) + 16 * n
     = String.length s)%nat /\
    (n = O -> skip = O -> regexp.replace_from skip s = s).
Proof.
  revert skip; induction s as [|ch s IH]; intros skip.
  - exists O. destruct skip; simpl; split; auto.
  - destruct skip as [|k].
    + cbn [regexp.replace_from].
      destruct (regexp.match_here (String ch s)) as [[g len]|] eqn:Hm.
      * apply match_here_Some in Hm as (t & j & Hs & Hg & -> & Hj).
        destruct (IH (15 + j + 1 - 1)%nat) as (n & Hn & _).
        assert (Hlen : String.length s = (14 + String.length t)%nat).
        { apply (f_equal String.length) in Hs. rewrite length_append in Hs.
          simpl in Hs. lia. }
        exists (S n). split; [|discriminate].
        rewrite length_append, Hg. cbn [String.length]. lia.
      * destruct (IH O) as (n & Hn & Hz). exists n. split.
        -- cbn [String.length]. simpl in Hn. lia.
        -- intros H0 _. now rewrite (Hz H0 eq_refl).
    + destruct (IH k) as (n & Hn & _). exists n. split; [|discriminate].
      cbn [regexp.replace_from String.length Nat.min]. lia.
Qed.

End RegexpLengths.

(** X20: removing the wrapper never lengthens a type: the result is the
    type itself or is at least 16 bytes shorter, the length of
    [LowCardinality(] and [)]; a type without a closing parenthesis is never
    changed. *)
Theorem ReplaceAllString_never_longer (typ : string) :
  (String.length (regexp.lowCardinalityRegexp_ReplaceAllString typ)
   <= String.length typ)%nat /\
  (regexp.lowCardinalityRegexp_ReplaceAllString typ = typ \/
   (String.length (regexp.lowCardinalityRegexp_ReplaceAllString typ) + 16
    <= String.length typ)%nat) /\
  (count_byte ")" typ = O ->
   regexp.lowCardinalityRegexp_ReplaceAllString typ = typ).
Proof.
  unfold regexp.lowCardinalityRegexp_ReplaceAllString.
  destruct (replace_from_length typ O) as (n & Hn & Hz).
  split; [lia |]. split; [| apply replace_from_no_close].
  destruct n as [|n]; [left; now apply Hz | right; lia].
Qed.

(** ** The wrapper inside a longer type *)

(** The spec's reading and the replacement of the code agree on a type
    that is a wrapper as a whole, on a wrapper that ends the type it sits in,
    and on a type without a wrapper. *)
Example spec_strip_wrapper_agrees :
  spec_strip_wrapper "LowCardinality(String)" = "String" /\
  regexp.lowCardinalityRegexp_ReplaceAllString "LowCardinality(String)" = "String" /\
  spec_strip_wrapper "LowCardinality(Nullable(String))" = "Nullable(String)" /\
  regexp.lowCardinalityRegexp_ReplaceAllString "LowCardinality(Nullable(String))"
  = "Nullable(String)" /\
  spec_strip_wrapper "Array(LowCardinality(String))" = "Array(String)" /\
  regexp.lowCardinalityRegexp_ReplaceAllString "Array(LowCardinality(String))"
  = "Array(String)" /\
  spec_strip_wrapper "Array(Int32)" = "Array(Int32)" /\
  regexp.lowCardinalityRegexp_ReplaceAllString "Array(Int32)" = "Array(Int32)".
Proof. repeat split; reflexivity. Qed.

(** C7, at a catalog whose columns hold the wrapper inside a tuple and
    inside a map: every column is resolved, in catalog order, but the type
    [initSchema] gives them is not the type with the wrapper stripped to its
    inner type: the pattern takes the last [)] of the type for the end of
    the wrapper, and removes that one. *)
Theorem initSchema_wrapper_inside_type :
  exists c' : ClickHouse,
    initSchema sample.GetSourceName sample3.Query (sample.sink 3) = (None, c') /\
    map model.Name (Dims c') = ["id"; "pair"; "attrs"] /\
    map model.Type_ (Dims c')
    = ["Int32"; "Tuple(String), Int32"; "Map(String), String"] /\
    map (fun r : catalog_row => spec_strip_wrapper (snd (fst r))) sample3.catalog
    = ["Int32"; "Tuple(String, Int32)"; "Map(String, String)"] /\
    map model.Type_ (Dims c')
    <> map (fun r : catalog_row => spec_strip_wrapper (snd (fst r))) sample3.catalog.
Proof.
  eexists. split; [reflexivity |]. repeat split; try reflexivity.
  discriminate.
Qed.
